(** * go-passwordless-sqlite: the SQLite token store and the request/verify protocol

    A shallow embedding of [SQLiteStore] (Store, Exists, Verify, Delete,
    getSessionByUID), of the [TokenStore] interface and of the package-level
    protocol functions, with the properties the specification states about
    them. *)

From Stdlib Require Import ZArith List String Ascii Bool Lia DecimalString.
Import ListNotations.
Local Open Scope string_scope.
Local Open Scope Z_scope.

(** ** Package [time]: instants, durations and the fixed timestamp layout *)

Module time.

(** An instant is its number of nanoseconds since 1970-01-01T00:00:00Z;
    [.UTC()] does not change the instant. *)
Definition Time := Z.
(** [time.Duration] is a count of nanoseconds. *)
Definition Duration := Z.

Definition Second : Duration := 1000000000.
Definition Minute : Duration := 60 * Second.
Definition Hour : Duration := 60 * Minute.

(** [t.Unix()]: whole seconds since the epoch, rounded down. *)
Definition Unix (t : Time) : Z := t / Second.
(** [t.Add(d)]. *)
Definition Add (t : Time) (d : Duration) : Time := t + d.
(** The instant at a whole number of seconds. *)
Definition FromUnix (sec : Z) : Time := sec * Second.

(** The zero [time.Time]: 0001-01-01T00:00:00Z. *)
Definition zero : Time := FromUnix (-62135596800).

(** *** The proleptic Gregorian calendar *)

(** Day number (days since 1970-01-01) to (year, month, day). *)
Definition civil_of_doe (doe : Z) : Z * Z * Z :=
  let yoe := (doe - doe / 1460 + doe / 36524 - doe / 146096) / 365 in
  let doy := doe - (365 * yoe + yoe / 4 - yoe / 100) in
  let mp := (5 * doy + 2) / 153 in
  let d := doy - (153 * mp + 2) / 5 + 1 in
  let m := if mp <? 10 then mp + 3 else mp - 9 in
  (yoe, m, d).

Definition civil_from_days (z : Z) : Z * Z * Z :=
  let z := z + 719468 in
  let era := z / 146097 in
  let '(yoe, m, d) := civil_of_doe (z mod 146097) in
  let y := yoe + era * 400 in
  (if m <=? 2 then y + 1 else y, m, d).

Definition doe_of_civil (yoe m d : Z) : Z :=
  let doy := (153 * (if 2 <? m then m - 3 else m + 9) + 2) / 5 + d - 1 in
  yoe * 365 + yoe / 4 - yoe / 100 + doy.

Definition days_from_civil (y m d : Z) : Z :=
  let y := if m <=? 2 then y - 1 else y in
  (y / 400) * 146097 + doe_of_civil (y mod 400) m d - 719468.

Definition isLeap (y : Z) : bool :=
  (y mod 4 =? 0) && (negb (y mod 100 =? 0) || (y mod 400 =? 0)).

Definition daysIn (m y : Z) : Z :=
  if m =? 2 then (if isLeap y then 29 else 28)
  else if (m =? 4) || (m =? 6) || (m =? 9) || (m =? 11) then 30 else 31.

(** *** Decimal fields *)

Definition digit (k : Z) : ascii := ascii_of_N (Z.to_N (48 + k)).

Definition digit_val (c : ascii) : option Z :=
  let n := Z.of_N (N_of_ascii c) in
  if (48 <=? n) && (n <=? 57) then Some (n - 48) else None.

Fixpoint zeros (n : nat) : string :=
  match n with O => "" | S k => String "0" (zeros k) end.

Definition digits2 (u : Z) : string :=
  String (digit (u / 10)) (String (digit (u mod 10)) "").

Definition digits4 (u : Z) : string := digits2 (u / 100) ++ digits2 (u mod 100).

(** [appendInt(b, x, width)]: the decimal digits of [x], zero-padded to at
    least [width] digits, after a minus sign when [x] is negative; two- and
    four-digit fields are written digit by digit. *)
Definition appendInt (x : Z) (width : nat) : string :=
  let u := Z.abs x in
  let body :=
    if Nat.eqb width 2 && (u <? 100) then digits2 u
    else if Nat.eqb width 4 && (u <? 10000) then digits4 u
    else
      let ds := NilZero.string_of_uint (N.to_uint (Z.to_N u)) in
      zeros (width - String.length ds) ++ ds in
  if x <? 0 then String "-" body else body.

(** [getnum(s, fixed = true)]: exactly two leading digits. *)
Definition getnum2 (s : string) : option (Z * string) :=
  match s with
  | String a (String b rest) =>
      match digit_val a, digit_val b with
      | Some x, Some y => Some (10 * x + y, rest)
      | _, _ => None
      end
  | _ => None
  end.

(** The four-digit year of the layout element [2006]. *)
Definition getnum4 (s : string) : option (Z * string) :=
  match getnum2 s with
  | Some (hi, rest) =>
      match getnum2 rest with
      | Some (lo, rest') => Some (100 * hi + lo, rest')
      | None => None
      end
  | None => None
  end.

(** A literal character of the layout. *)
Definition skip (c : ascii) (s : string) : option string :=
  match s with
  | String a rest => if Ascii.eqb a c then Some rest else None
  | EmptyString => None
  end.

(** *** [Format] and [Parse] at the layout [2006-01-02T15:04:05Z] *)

(** The layouts this package formats and parses with: the one constant
    [DateFormatISO8601 = "2006-01-02T15:04:05Z"]. *)
Inductive Layout := ISO8601.

Definition layout_text (l : Layout) : string :=
  match l with ISO8601 => "2006-01-02T15:04:05Z" end.

(** [t.Format("2006-01-02T15:04:05Z")] of a UTC instant: the civil date and
    time of day of its whole second; the sub-second part is not printed and
    the final [Z] of the layout is a literal. *)
Definition Format (l : Layout) (t : Time) : string :=
  let sec := Unix t in
  let '(y, m, d) := civil_from_days (sec / 86400) in
  let r := sec mod 86400 in
  appendInt y 4 ++ "-" ++ appendInt m 2 ++ "-" ++ appendInt d 2 ++ "T"
    ++ appendInt (r / 3600) 2 ++ ":" ++ appendInt (r mod 3600 / 60) 2 ++ ":"
    ++ appendInt (r mod 60) 2 ++ "Z".

Inductive ParseError := ParseErr (layout value : string).

Definition bindo {A B} (o : option A) (k : A -> option B) : option B :=
  match o with Some a => k a | None => None end.

(** The fields of a text in the layout, with the range checks of
    [time.Parse]; [None] when the text does not have the layout's shape. *)
Definition parse_fields (s : string) : option Time :=
  bindo (getnum4 s) (fun '(y, s) =>
  bindo (skip "-" s) (fun s =>
  bindo (getnum2 s) (fun '(m, s) =>
  bindo (skip "-" s) (fun s =>
  bindo (getnum2 s) (fun '(d, s) =>
  bindo (skip "T" s) (fun s =>
  bindo (getnum2 s) (fun '(hh, s) =>
  bindo (skip ":" s) (fun s =>
  bindo (getnum2 s) (fun '(mi, s) =>
  bindo (skip ":" s) (fun s =>
  bindo (getnum2 s) (fun '(ss, s) =>
  bindo (skip "Z" s) (fun s =>
    match s with
    | EmptyString =>
        if (1 <=? m) && (m <=? 12) && (1 <=? d) && (d <=? daysIn m y)
           && (hh <? 24) && (mi <? 60) && (ss <? 60)
        then Some (FromUnix (days_from_civil y m d * 86400
                             + hh * 3600 + mi * 60 + ss))
        else None
    | _ => None
    end)))))))))))).

(** [time.Parse("2006-01-02T15:04:05Z", value)]. *)
Definition Parse (l : Layout) (value : string) : Time + ParseError :=
  match parse_fields value with
  | Some t => inl t
  | None => inr (ParseErr (layout_text l) value)
  end.

(** The instants whose year has four digits: 0000-01-01T00:00:00Z up to
    the last nanosecond of 9999-12-31T23:59:59Z. *)
Definition four_digit_year (t : Time) : Prop :=
  -62167219200 <= Unix t <= 253402300799.

End time.

(** ** Errors

    A Go [error] value is [option error], [None] being [nil]. *)

(** The package-level [errors.New] values, told apart by the variable that
    holds them (Go compares them by identity, not by message). *)
Inductive Sentinel :=
  | TokenNotFound
  | TokenExpired
  | DBConnectionNotValid
  | TableNameNotValid
  | TokenNotValid.

Inductive error :=
  | New (v : Sentinel)
  (* github.com/pkg/errors *)
  | withStack (cause : error)
  | Errorf (msg : string)
  (* errors of the libraries *)
  | BcryptError (msg : string)
  | SqlError (msg : string)
  | TimeParseError (e : time.ParseError)
  (* an error made by a caller-supplied strategy or store *)
  | CustomError (msg : string).

Definition ErrTokenNotFound : error := New TokenNotFound.
Definition ErrTokenExpired : error := New TokenExpired.
Definition ErrDBConnectionNotValid : error := New DBConnectionNotValid.
Definition ErrTableNameNotValid : error := New TableNameNotValid.

(** Modelled from the spec: the declaration of [ErrTokenNotValid], the value
    [SQLiteStore.Verify] returns on a hash mismatch, is not in store.go's
    [var] block. The spec counts the mismatch among the sentinel error
    values; like its siblings it is a non-nil [errors.New] value of its
    own. *)
Definition ErrTokenNotValid : error := New TokenNotValid.

Module errors.

(** [errors.WithStack(err)]: [nil] stays [nil], any other error is wrapped. *)
Definition WithStack (err : option error) : option error :=
  match err with
  | None => None
  | Some e => Some (withStack e)
  end.

(** [errors.Cause(err)]: the innermost wrapped error. *)
Fixpoint Cause (e : error) : error :=
  match e with
  | withStack c => Cause c
  | _ => e
  end.

End errors.

(** ** Package [bcrypt] (golang.org/x/crypto/bcrypt)

    The key-derivation itself is not modelled: the package is an interface,
    and what the store relies on is stated as [bcrypt.Correct]. Go strings
    and byte slices are both [string] here (sequences of bytes). *)

Module bcrypt.

Definition DefaultCost : Z := 10.

Class Package := {
  (** [GenerateFromPassword(password, cost)]; [salt] is what the call
      reads from crypto/rand. *)
  GenerateFromPassword : forall (salt password : string) (cost : Z), string + error;
  (** [CompareHashAndPassword(hashedPassword, password)]: [nil] on a
      match. *)
  CompareHashAndPassword : forall (hashedPassword password : string), option error
}.

(** A password compares equal to every hash generated from it. *)
Class Correct (P : Package) : Prop :=
  compare_generated :
    forall salt password cost h,
      GenerateFromPassword salt password cost = inl h ->
      CompareHashAndPassword h password = None.

End bcrypt.

(** ** The world the store runs in *)

(** A row of the session table:
    [(uid string primary key, token, expires, created)]. *)
Record Row := {
  col_uid : string;
  col_token : string;
  col_expires : string;
  col_created : string
}.

(** The database behind [*sql.DB]: its tables by name. A statement on a
    table that does not exist fails. *)
Definition Database := string -> option (list Row).

(** The calls a store method makes to the libraries, in the order it makes
    them. *)
Inductive LibCall :=
  | EvQuery (table uid : string)
  | EvExec (table : string) (r : Row)
  | EvNow (t : time.Time)
  | EvGenerateFromPassword (password : string) (cost : Z)
  | EvCompareHashAndPassword (hashedPassword password : string).

(** A computation on a state [S] that makes calls of kind [E]: its result,
    the state it leaves and the calls it made, first call first. *)
Definition M (E S A : Type) : Type := S -> A * S * list E.

Definition ret {E S A} (a : A) : M E S A := fun s => (a, s, []).

Definition bind {E S A B} (m : M E S A) (k : A -> M E S B) : M E S B :=
  fun s =>
    let '(a, s1, l1) := m s in
    let '(b, s2, l2) := k a s1 in
    (b, s2, (l1 ++ l2)%list).

Definition emit {E S} (e : E) : M E S unit := fun s => (tt, s, [e]).
Definition get {E S} : M E S S := fun s => (s, s, []).
Definition put {E S} (s : S) : M E S unit := fun _ => (tt, s, []).

Notation "x <- m ;; k" := (bind m (fun x => k))
  (at level 61, m at next level, right associativity).
Notation "' p <- m ;; k" := (bind m (fun x => match x with p => k end))
  (at level 61, p pattern, m at next level, right associativity).
Notation "m ;;; k" := (bind m (fun _ => k))
  (at level 61, right associativity).

Definition result {E S A} (r : A * S * list E) : A := fst (fst r).
Definition state {E S A} (r : A * S * list E) : S := snd (fst r).
Definition calls {E S A} (r : A * S * list E) : list E := snd r.

(** What a call takes from outside the program: the bytes crypto/rand
    yields and the readings of the clock, [now n] being the [n]-th
    [time.Now()] of the call (counted from 0). *)
Record Env := {
  rand_salt : string;
  now : nat -> time.Time
}.

(** ** The session table and its two statements *)

Module sql.

Definition set_table (name : string) (t : list Row) (db : Database) : Database :=
  fun n => if String.eqb n name then Some t else db n.

(** [insert into T (uid, token, expires, created) values (?, ?, ?, ?)
     on conflict(uid) do update set
     token = excluded.token, expires = excluded.expires]:
    the row with the same uid keeps its uid and created columns and takes
    the new token and expires; without such a row the new row is added. *)
Fixpoint upsert (r : Row) (t : list Row) : list Row :=
  match t with
  | [] => [r]
  | x :: t' =>
      if String.eqb (col_uid x) (col_uid r)
      then {| col_uid := col_uid x;
              col_token := col_token r;
              col_expires := col_expires r;
              col_created := col_created x |} :: t'
      else x :: upsert r t'
  end.

(** [select token, expires, created from T where uid = ?]: the matching
    rows, in table order. *)
Definition select_by_uid (uid : string) (t : list Row) : list Row :=
  filter (fun r => String.eqb (col_uid r) uid) t.

Definition no_such_table (name : string) : error :=
  SqlError ("no such table: " ++ name).

(** [db.Exec] of the upsert. *)
Definition Exec (table : string) (r : Row) : M LibCall Database (option error) :=
  emit (EvExec table r) ;;;
  db <- get ;;
  match db table with
  | None => ret (Some (no_such_table table))
  | Some t => put (set_table table (upsert r t) db) ;;; ret None
  end.

(** [db.Query] of the select. *)
Definition Query (table uid : string) : M LibCall Database (list Row * option error) :=
  emit (EvQuery table uid) ;;;
  db <- get ;;
  match db table with
  | None => ret ([], Some (no_such_table table))
  | Some t => ret (select_by_uid uid t, None)
  end.

(** The primary key: no two rows of a table share a uid. *)
Definition primary_key (t : list Row) : Prop := NoDup (map col_uid t).

End sql.

(** ** [SQLiteStore] *)

Record Session := {
  TokenHash : string;
  UID : string;
  Expires : time.Time;
  Created : time.Time
}.

(** The zero value of [Session]. *)
Definition Session_zero : Session :=
  {| TokenHash := ""; UID := ""; Expires := time.zero; Created := time.zero |}.

(** [SQLiteStore]; its [db] field is the [Database] the methods run on. *)
Record SQLiteStore := {
  tableName : string;
  dateFormat : time.Layout
}.

Definition TableName : string := "session".
Definition DateFormatISO8601 : time.Layout := time.ISO8601.

(** [NewSQLiteStore(db, tableName)]; [db_nil] says whether [db == nil]. *)
Definition NewSQLiteStore (db_nil : bool) (tableName : string)
  : option SQLiteStore * option error :=
  if db_nil then (None, errors.WithStack (Some ErrDBConnectionNotValid))
  else
    let tableName := if String.eqb tableName "" then TableName else tableName in
    (Some {| tableName := tableName; dateFormat := DateFormatISO8601 |}, None).

Section Store.

Context {B : bcrypt.Package}.

Definition time_Now (e : Env) (n : nat) : M LibCall Database time.Time :=
  emit (EvNow (now e n)) ;;; ret (now e n).

Definition bcrypt_GenerateFromPassword (e : Env) (password : string) (cost : Z)
  : M LibCall Database (string + error) :=
  emit (EvGenerateFromPassword password cost) ;;;
  ret (bcrypt.GenerateFromPassword (rand_salt e) password cost).

Definition bcrypt_CompareHashAndPassword (hashedPassword password : string)
  : M LibCall Database (option error) :=
  emit (EvCompareHashAndPassword hashedPassword password) ;;;
  ret (bcrypt.CompareHashAndPassword hashedPassword password).

(** [getSessionByUID]: the first row the query yields. [rows.Scan] into
    strings and [rows.Err] do not fail on rows of text. *)
Definition getSessionByUID (s : SQLiteStore) (uid : string)
  : M LibCall Database (Session * option error) :=
  let session := Session_zero in
  '(rows, err) <- sql.Query (tableName s) uid ;;
  match err with
  | Some _ => ret (session, errors.WithStack err)
  | None =>
      match rows with
      | [] => ret (session, errors.WithStack (Some ErrTokenNotFound))
      | r :: _ =>
          let token := col_token r in
          let expires := col_expires r in
          let created := col_created r in
          let session :=
            {| TokenHash := token; UID := uid;
               Expires := Expires session; Created := Created session |} in
          match time.Parse DateFormatISO8601 expires with
          | inr pe =>
              ret ({| TokenHash := token; UID := uid;
                      Expires := time.zero; Created := Created session |},
                   errors.WithStack (Some (TimeParseError pe)))
          | inl ex =>
              match time.Parse DateFormatISO8601 created with
              | inr pe =>
                  ret ({| TokenHash := token; UID := uid;
                          Expires := ex; Created := time.zero |},
                       errors.WithStack (Some (TimeParseError pe)))
              | inl cr =>
                  ret ({| TokenHash := token; UID := uid;
                          Expires := ex; Created := cr |}, None)
              end
          end
      end
  end.

(** [SQLiteStore.Store]. [sqlx.Named] and [sqlx.In] only expand the one
    [:values] of the fixed statement into four placeholders. *)
Definition Store (e : Env) (s : SQLiteStore) (token uid : string)
    (ttl : time.Duration) : M LibCall Database (option error) :=
  g <- bcrypt_GenerateFromPassword e token bcrypt.DefaultCost ;;
  match g with
  | inr err => ret (errors.WithStack (Some err))
  | inl hashedToken =>
      t0 <- time_Now e 0 ;;
      t1 <- time_Now e 1 ;;
      let row := {| col_uid := uid;
                    col_token := hashedToken;
                    col_expires := time.Format (dateFormat s) (time.Add t0 ttl);
                    col_created := time.Format (dateFormat s) t1 |} in
      err <- sql.Exec (tableName s) row ;;
      match err with
      | Some _ => ret (errors.WithStack err)
      | None => ret None
      end
  end.

(** [SQLiteStore.Exists]. *)
Definition Exists (e : Env) (s : SQLiteStore) (uid : string)
  : M LibCall Database (bool * time.Time * option error) :=
  let expires := time.zero in
  '(session, err) <- getSessionByUID s uid ;;
  match err with
  | Some _ => ret (false, expires, errors.WithStack err)
  | None =>
      now <- time_Now e 0 ;;
      if time.Unix now >? time.Unix (Expires session)
      then ret (false, expires, errors.WithStack (Some ErrTokenExpired))
      else ret (true, Expires session, None)
  end.

(** [SQLiteStore.Verify]. *)
Definition Verify (e : Env) (s : SQLiteStore) (token uid : string)
  : M LibCall Database (bool * option error) :=
  '(session, err) <- getSessionByUID s uid ;;
  match err with
  | Some _ => ret (false, errors.WithStack err)
  | None =>
      now <- time_Now e 0 ;;
      if time.Unix now >? time.Unix (Expires session)
      then ret (false, errors.WithStack (Some ErrTokenExpired))
      else
        err <- bcrypt_CompareHashAndPassword (TokenHash session) token ;;
        match err with
        | Some _ => ret (false, errors.WithStack (Some ErrTokenNotValid))
        | None => ret (true, None)
        end
  end.

(** [SQLiteStore.Delete]. *)
Definition Delete (s : SQLiteStore) (uid : string) : M LibCall Database (option error) :=
  ret (Some (Errorf "TODO Delete")).

End Store.

(** The row a query by uid yields first, if the table exists and has one. *)
Definition lookup (s : SQLiteStore) (uid : string) (db : Database) : option Row :=
  match db (tableName s) with
  | Some t => hd_error (sql.select_by_uid uid t)
  | None => None
  end.

(** The rows of a table carry timestamps in the layout. *)
Definition timestamps_parse (r : Row) : Prop :=
  (exists ex, time.Parse DateFormatISO8601 (col_expires r) = inl ex) /\
  (exists cr, time.Parse DateFormatISO8601 (col_created r) = inl cr).

(** What holds of a session table that only [Store] has written to: the
    primary key, and timestamps in the layout. *)
Definition table_ok (t : list Row) : Prop :=
  sql.primary_key t /\ Forall timestamps_parse t.

(** ** The [TokenStore] interface and the strategies *)

Module TokenStore.

(** The interface of store.go; the [ctx] argument, which no implementation
    here reads, is left out. A method is a function on the state of the
    implementation. *)
Record t (S : Type) := {
  Store : forall (token uid : string) (ttl : time.Duration), S -> option error * S;
  Exists : forall (uid : string), S -> (bool * time.Time * option error) * S;
  Verify : forall (token uid : string), S -> (bool * option error) * S;
  Delete : forall (uid : string), S -> option error * S
}.
Arguments Store {S}.
Arguments Exists {S}.
Arguments Verify {S}.
Arguments Delete {S}.

End TokenStore.

Module Strategy.

(** Modelled from the spec: the declaration of the [Strategy] interface is
    not among the sources; the tests implement it with [TTL], [Generate],
    [Sanitize], [Send] and [Valid], the capability set the spec lists. *)
Record t (T : Type) := {
  Valid : bool;
  TTL : time.Duration;
  Generate : T -> (string * option error) * T;
  Sanitize : string -> T -> (string * option error) * T;
  Send : forall (token user recipient : string), T -> option error * T
}.
Arguments Valid {T}.
Arguments TTL {T}.
Arguments Generate {T}.
Arguments Sanitize {T}.
Arguments Send {T}.

End Strategy.

(** The calls the protocol functions make through the interfaces. *)
Inductive Call :=
  | CallGenerate
  | CallSend (token user recipient : string)
  | CallStore (token uid : string) (ttl : time.Duration)
  | CallVerify (token uid : string)
  | CallDelete (uid : string).

(** A call through an interface: the call is recorded and the method runs. *)
Definition invoke {S A} (c : Call) (f : S -> A * S) : M Call S A :=
  fun s => let '(a, s') := f s in (a, s', [c]).

(** A method of the strategy runs on the first component of the state, a
    method of the store on the second. *)
Definition on_strategy {T S A} (f : T -> A * T) : T * S -> A * (T * S) :=
  fun '(t, s) => let '(a, t') := f t in (a, (t', s)).
Definition on_store {T S A} (f : S -> A * S) : T * S -> A * (T * S) :=
  fun '(t, s) => let '(a, s') := f s in (a, (t, s')).

(** Modelled from the spec: the body of the package-level [RequestToken]
    (called by TestRequestToken) is not among the sources. The spec: calls
    Generate, failure propagates verbatim; calls Send with the generated
    token, failure propagates verbatim and Store is never invoked if Send
    fails; calls Store with the configured TTL, failure propagates
    verbatim. *)
Definition RequestToken {T S} (s : TokenStore.t S) (t : Strategy.t T)
    (uid recipient : string) : M Call (T * S) (option error) :=
  '(tok, err) <- invoke CallGenerate (on_strategy (Strategy.Generate t)) ;;
  match err with
  | Some _ => ret err
  | None =>
      err <- invoke (CallSend tok uid recipient)
               (on_strategy (Strategy.Send t tok uid recipient)) ;;
      match err with
      | Some _ => ret err
      | None =>
          invoke (CallStore tok uid (Strategy.TTL t))
            (on_store (TokenStore.Store s tok uid (Strategy.TTL t)))
      end
  end.

(** Modelled from the spec: the body of the package-level [VerifyToken]
    (called by TestVerifyToken) is not among the sources. The spec:
    delegates to the store's Verify; if verification succeeds, immediately
    issues a Delete for the same uid; if Delete fails, still reports the
    token as valid but also returns the delete error. *)
Definition VerifyToken {S} (s : TokenStore.t S) (uid token : string)
  : M Call S (bool * option error) :=
  '(valid, err) <- invoke (CallVerify token uid) (TokenStore.Verify s token uid) ;;
  match err with
  | Some _ => ret (false, err)
  | None =>
      if valid
      then err <- invoke (CallDelete uid) (TokenStore.Delete s uid) ;;
           ret (true, err)
      else ret (false, None)
  end.

(** [SQLiteStore] as a [TokenStore]. *)
Definition SQLiteTokenStore {B : bcrypt.Package} (e : Env) (s : SQLiteStore)
  : TokenStore.t Database :=
  {| TokenStore.Store := fun token uid ttl db => fst (Store e s token uid ttl db);
     TokenStore.Exists := fun uid db => fst (Exists e s uid db);
     TokenStore.Verify := fun token uid db => fst (Verify e s token uid db);
     TokenStore.Delete := fun uid db => fst (Delete s uid db) |}.

(** ** Fixtures for the examples *)

Module fixture.

(** A stand-in for bcrypt in examples: the hash is the password behind a
    fixed prefix, and comparing re-derives it. *)
Definition hash (password : string) : string := "$2a$10$" ++ password.

#[local] Instance plain : bcrypt.Package := {|
  bcrypt.GenerateFromPassword salt password cost :=
    if Nat.ltb 72 (String.length password)
    then inr (BcryptError "password length exceeds 72 bytes")
    else inl (hash password);
  bcrypt.CompareHashAndPassword h password :=
    if String.eqb h (hash password) then None
    else Some (BcryptError "hashedPassword is not the hash of the given password")
|}.

(** 2026-10-31T12:00:00.5Z at every reading of the clock. *)
Definition noon : time.Time := 1793448000500000000.
Definition env (t : time.Time) : Env := {| rand_salt := "salt"; now := fun _ => t |}.

Definition store : SQLiteStore :=
  {| tableName := TableName; dateFormat := DateFormatISO8601 |}.

(** The database createDB makes: an empty session table. *)
Definition createDB : Database :=
  fun n => if String.eqb n "session" then Some [] else None.

(** A test strategy with fixed outcomes, and state that records what was
    sent (as testTransport does). *)
Definition strategy (token : string) (gen_err send_err : option error)
  : Strategy.t (list string) :=
  {| Strategy.Valid := true;
     Strategy.TTL := 5 * time.Minute;
     Strategy.Generate := fun st => ((token, gen_err), st);
     Strategy.Sanitize := fun x st => ((x, None), st);
     Strategy.Send := fun tok user recipient st => (send_err, tok :: st) |}.

(** mockTokenStore with fixed outcomes; its state counts the calls. *)
Definition mockTokenStore (store_err : option error)
    (verify : bool * option error) (delete_err : option error)
  : TokenStore.t nat :=
  {| TokenStore.Store := fun _ _ _ n => (store_err, S n);
     TokenStore.Exists := fun _ n => ((false, time.zero, None), S n);
     TokenStore.Verify := fun _ _ n => (verify, S n);
     TokenStore.Delete := fun _ n => (delete_err, S n) |}.

(** The database after [Store(token, "uid", ttl)] on the empty table. *)
Definition stored (token : string) (ttl : time.Duration) : Database :=
  state (Store (env noon) store token "uid" ttl createDB).

End fixture.

(** ** Sequences of store operations *)

Inductive Op :=
  | OpStore (e : Env) (token uid : string) (ttl : time.Duration)
  | OpExists (e : Env) (uid : string)
  | OpVerify (e : Env) (token uid : string)
  | OpDelete (uid : string).

(** The database an operation leaves. *)
Definition run_op {B : bcrypt.Package} (s : SQLiteStore) (op : Op) (db : Database)
  : Database :=
  match op with
  | OpStore e token uid ttl => state (Store e s token uid ttl db)
  | OpExists e uid => state (Exists e s uid db)
  | OpVerify e token uid => state (Verify e s token uid db)
  | OpDelete uid => state (Delete s uid db)
  end.

Definition run_ops {B : bcrypt.Package} (s : SQLiteStore) (ops : list Op)
    (db : Database) : Database :=
  fold_left (fun db op => run_op s op db) ops db.

(** The clock readings a [Store] turns into text fall in the years the
    layout can print and read back. *)
Definition clock_ok (op : Op) : Prop :=
  match op with
  | OpStore e _ _ ttl =>
      time.four_digit_year (time.Add (now e 0) ttl) /\ time.four_digit_year (now e 1)
  | _ => True
  end.

(** The session table of a store, when the database has it, satisfies
    [table_ok]. *)
Definition store_ok (s : SQLiteStore) (db : Database) : Prop :=
  forall t, db (tableName s) = Some t -> table_ok t.

(** ** Proof automation *)

(** Unfolds the operations of [M]. *)
Ltac unfold_m :=
  unfold bind, ret, emit, get, put, result, state, calls in *.

(** Settles a closed side condition by evaluation. A premise about a row
    that does not exist is refuted from its equation, without normalising
    the conclusion under its binder. *)
Ltac by_computation :=
  lazymatch goal with
  | |- forall _, _ = Some _ -> _ =>
      let x := fresh in
      let H := fresh in
      intros x H; vm_compute in H; discriminate H
  | |- @eq Database _ _ => reflexivity
  | |- _ =>
      vm_compute;
      repeat match goal with
             | |- _ /\ _ => split
             | |- _ -> _ => intro
             end;
      first [reflexivity | discriminate | assumption]
  end.

(** * Properties *)

(** ** The calendar and the timestamp layout *)

Lemma civil_from_days_spec z :
  let '(y, m, d) := time.civil_from_days z in
  1 <= m <= 12 /\ 1 <= d <= time.daysIn m y /\ time.days_from_civil y m d = z.
Proof.
  unfold time.civil_from_days, time.civil_of_doe, time.days_from_civil, time.doe_of_civil.
  set (z' := z + 719468).
  set (era := z' / 146097).
  set (doe := z' mod 146097).
  set (yoe := (doe - doe / 1460 + doe / 36524 - doe / 146096) / 365).
  set (doy := doe - (365 * yoe + yoe / 4 - yoe / 100)).
  set (mp := (5 * doy + 2) / 153).
  set (d := doy - (153 * mp + 2) / 5 + 1).
  assert (Hdoe : 0 <= doe < 146097) by (subst doe; apply Z.mod_pos_bound; lia).
  assert (Hz : z' = 146097 * era + doe) by (subst era doe; apply Z.div_mod; lia).
  assert (Hy : 0 <= yoe < 400 /\ 0 <= doy /\
               doe < 365 * (yoe + 1) + (yoe + 1) / 4 - (yoe + 1) / 100 + (yoe + 1) / 400).
  { subst doy yoe. Z.div_mod_to_equations. lia. }
  assert (Hmp : 0 <= mp <= 11) by (subst mp doy; Z.div_mod_to_equations; lia).
  assert (Hera : forall k, 0 <= k < 400 -> (k + era * 400) / 400 = era /\ (k + era * 400) mod 400 = k).
  { intros k Hk. Z.div_mod_to_equations. lia. }
  destruct (Z.ltb_spec mp 10) as [Hlt|Hge].
  - (* March .. December *)
    destruct (Z.leb_spec (mp + 3) 2); [lia|].
    destruct (Z.ltb_spec 2 (mp + 3)); [|lia].
    destruct (Hera yoe) as [-> ->]; [lia|].
    replace (mp + 3 - 3) with mp by lia.
    split; [lia|]. split.
    + unfold time.daysIn.
      destruct (Z.eqb_spec (mp + 3) 2); [lia|].
      assert (Hm : mp = 0 \/ mp = 1 \/ mp = 2 \/ mp = 3 \/ mp = 4 \/ mp = 5 \/ mp = 6
                   \/ mp = 7 \/ mp = 8 \/ mp = 9) by lia.
      subst d.
      destruct Hm as [E|[E|[E|[E|[E|[E|[E|[E|[E|E]]]]]]]]]; rewrite E in *;
        cbn [Z.eqb Z.add Pos.add Pos.succ Pos.eqb orb Pos.add_carry];
        subst mp doy; Z.div_mod_to_equations; lia.
    + subst d z' mp doy. Z.div_mod_to_equations. lia.
  - (* January, February *)
    destruct (Z.leb_spec (mp - 9) 2); [|lia].
    destruct (Z.ltb_spec 2 (mp - 9)); [lia|].
    replace (yoe + era * 400 + 1 - 1) with (yoe + era * 400) by lia.
    destruct (Hera yoe) as [-> ->]; [lia|].
    replace (mp - 9 + 9) with mp by lia.
    split; [lia|]. split.
    + unfold time.daysIn, time.isLeap.
      assert (Hm : mp = 10 \/ mp = 11) by lia.
      subst d.
      destruct Hm as [E|E]; rewrite E in *;
        cbn [Z.eqb Z.sub Z.add Z.opp Z.pos_sub Pos.add Pos.succ Pos.eqb orb Pos.pred_double Z.double Z.succ_double Z.pred_double].
      * subst mp doy; Z.div_mod_to_equations; lia.
      * destruct (Z.eqb_spec ((yoe + era * 400 + 1) mod 4) 0);
        destruct (Z.eqb_spec ((yoe + era * 400 + 1) mod 100) 0);
        destruct (Z.eqb_spec ((yoe + era * 400 + 1) mod 400) 0);
        cbn [andb orb negb];
        subst mp doy; Z.div_mod_to_equations; lia.
    + subst d z' mp doy. Z.div_mod_to_equations. lia.
Qed.

Lemma civil_from_days_year z :
  -719528 <= z <= 2932896 ->
  let '(y, _, _) := time.civil_from_days z in 0 <= y <= 9999.
Proof.
  intros Hr.
  unfold time.civil_from_days, time.civil_of_doe.
  set (z' := z + 719468).
  set (era := z' / 146097).
  set (doe := z' mod 146097).
  set (yoe := (doe - doe / 1460 + doe / 36524 - doe / 146096) / 365).
  set (doy := doe - (365 * yoe + yoe / 4 - yoe / 100)).
  set (mp := (5 * doy + 2) / 153).
  assert (Hdoe : 0 <= doe < 146097) by (subst doe; apply Z.mod_pos_bound; lia).
  assert (Hz : z' = 146097 * era + doe) by (subst era doe; apply Z.div_mod; lia).
  assert (Hy : 0 <= yoe < 400 /\ 0 <= doy /\
               doe < 365 * (yoe + 1) + (yoe + 1) / 4 - (yoe + 1) / 100 + (yoe + 1) / 400).
  { subst doy yoe. Z.div_mod_to_equations. lia. }
  assert (Hmp : 0 <= mp <= 11) by (subst mp doy; Z.div_mod_to_equations; lia).
  destruct (Z.ltb_spec mp 10) as [Hlt|Hge].
  - destruct (Z.leb_spec (mp + 3) 2); [lia|].
    subst z' mp doy. Z.div_mod_to_equations. lia.
  - destruct (Z.leb_spec (mp - 9) 2); [|lia].
    subst z' mp doy. Z.div_mod_to_equations. lia.
Qed.

Example Format_example :
  time.Format time.ISO8601 1793448000500000000 = "2026-10-31T12:00:00Z".
Proof. vm_compute. reflexivity. Qed.
Example Format_first : time.Format time.ISO8601 (time.FromUnix (-62167219200)) = "0000-01-01T00:00:00Z".
Proof. vm_compute. reflexivity. Qed.
Example Format_big : time.Format time.ISO8601 (time.FromUnix (253402300800)) = "10000-01-01T00:00:00Z".
Proof. vm_compute. reflexivity. Qed.
Example Format_neg : time.Format time.ISO8601 (time.FromUnix (-62167219201)) = "-0001-12-31T23:59:59Z".
Proof. vm_compute. reflexivity. Qed.

Lemma digit_val_digit k : 0 <= k <= 9 -> time.digit_val (time.digit k) = Some k.
Proof.
  intros H.
  assert (E : k = 0 \/ k = 1 \/ k = 2 \/ k = 3 \/ k = 4 \/ k = 5 \/ k = 6
              \/ k = 7 \/ k = 8 \/ k = 9) by lia.
  destruct E as [E|[E|[E|[E|[E|[E|[E|[E|[E|E]]]]]]]]]; subst k; reflexivity.
Qed.

Lemma getnum2_digits2 n rest :
  0 <= n <= 99 -> time.getnum2 (time.digits2 n ++ rest) = Some (n, rest).
Proof.
  intros H. unfold time.digits2. cbn [append time.getnum2].
  rewrite !digit_val_digit by (Z.div_mod_to_equations; lia).
  f_equal. f_equal. Z.div_mod_to_equations. lia.
Qed.

Lemma getnum4_digits4 n rest :
  0 <= n <= 9999 -> time.getnum4 (time.digits4 n ++ rest) = Some (n, rest).
Proof.
  intros H. unfold time.getnum4, time.digits4.
  change ((time.digits2 (n / 100) ++ time.digits2 (n mod 100)) ++ rest)
    with (time.digits2 (n / 100) ++ (time.digits2 (n mod 100) ++ rest)).
  rewrite getnum2_digits2 by (Z.div_mod_to_equations; lia).
  rewrite getnum2_digits2 by (Z.div_mod_to_equations; lia).
  f_equal. f_equal. Z.div_mod_to_equations. lia.
Qed.

Lemma appendInt_2 n : 0 <= n <= 99 -> time.appendInt n 2 = time.digits2 n.
Proof.
  intros H. unfold time.appendInt.
  destruct (Z.ltb_spec n 0); [lia|].
  rewrite Z.abs_eq by lia.
  destruct (Z.ltb_spec n 100); [reflexivity|lia].
Qed.

Lemma appendInt_4 n : 0 <= n <= 9999 -> time.appendInt n 4 = time.digits4 n.
Proof.
  intros H. unfold time.appendInt.
  destruct (Z.ltb_spec n 0); [lia|].
  rewrite Z.abs_eq by lia.
  destruct (Z.ltb_spec n 10000); [reflexivity|lia].
Qed.

Lemma Unix_FromUnix sec : time.Unix (time.FromUnix sec) = sec.
Proof. unfold time.Unix, time.FromUnix, time.Second. apply Z.div_mul. lia. Qed.

Lemma Parse_Format l t :
  time.four_digit_year t ->
  time.Parse l (time.Format l t) = inl (time.FromUnix (time.Unix t)).
Proof.
  intros [Hlo Hhi]. unfold time.Parse, time.Format.
  set (sec := time.Unix t) in *.
  pose proof (civil_from_days_spec (sec / 86400)) as Hc.
  pose proof (civil_from_days_year (sec / 86400)) as Hyr.
  destruct (time.civil_from_days (sec / 86400)) as [[y m] d].
  destruct Hc as (Hm & Hd & Hdays).
  assert (Hy : 0 <= y <= 9999) by (apply Hyr; Z.div_mod_to_equations; lia).
  assert (Hd31 : time.daysIn m y <= 31).
  { unfold time.daysIn. destruct (m =? 2); [destruct (time.isLeap y); lia|].
    destruct ((m =? 4) || (m =? 6) || (m =? 9) || (m =? 11)); lia. }
  set (r := sec mod 86400).
  assert (Hr : 0 <= r < 86400) by (subst r; apply Z.mod_pos_bound; lia).
  assert (Hsec : sec = 86400 * (sec / 86400) + r) by (subst r; apply Z.div_mod; lia).
  clearbody r.
  rewrite appendInt_4 by lia.
  rewrite !appendInt_2 by (Z.div_mod_to_equations; lia).
  unfold time.parse_fields.
  rewrite getnum4_digits4 by lia. cbn [time.bindo append time.skip Ascii.eqb Bool.eqb].
  rewrite getnum2_digits2 by lia. cbn [time.bindo append time.skip Ascii.eqb Bool.eqb].
  rewrite getnum2_digits2 by lia. cbn [time.bindo append time.skip Ascii.eqb Bool.eqb].
  rewrite getnum2_digits2 by (Z.div_mod_to_equations; lia).
  cbn [time.bindo append time.skip Ascii.eqb Bool.eqb].
  rewrite getnum2_digits2 by (Z.div_mod_to_equations; lia).
  cbn [time.bindo append time.skip Ascii.eqb Bool.eqb].
  rewrite getnum2_digits2 by (Z.div_mod_to_equations; lia).
  cbn [time.bindo append time.skip Ascii.eqb Bool.eqb].
  replace ((1 <=? m) && (m <=? 12) && (1 <=? d) && (d <=? time.daysIn m y)
           && (r / 3600 <? 24) && (r mod 3600 / 60 <? 60) && (r mod 60 <? 60)) with true.
  - rewrite Hdays. f_equal. f_equal. Z.div_mod_to_equations. lia.
  - symmetry. rewrite !andb_true_iff.
    repeat split; first [apply Z.leb_le | apply Z.ltb_lt]; try lia;
      Z.div_mod_to_equations; lia.
Qed.

(** ** The two statements *)

Lemma select_by_uid_upsert_same r t :
  hd_error (sql.select_by_uid (col_uid r) (sql.upsert r t)) =
  Some match hd_error (sql.select_by_uid (col_uid r) t) with
       | Some x => {| col_uid := col_uid x; col_token := col_token r;
                      col_expires := col_expires r; col_created := col_created x |}
       | None => r
       end.
Proof.
  induction t as [|x t IH]; cbn [sql.upsert sql.select_by_uid filter].
  - rewrite String.eqb_refl. reflexivity.
  - destruct (String.eqb_spec (col_uid x) (col_uid r)) as [E|NE].
    + cbn [filter col_uid]. rewrite E, String.eqb_refl. cbn [hd_error]. rewrite E. reflexivity.
    + cbn [filter]. destruct (String.eqb_spec (col_uid x) (col_uid r)); [contradiction|].
      exact IH.
Qed.


Lemma map_uid_upsert_in r t :
  In (col_uid r) (map col_uid t) -> map col_uid (sql.upsert r t) = map col_uid t.
Proof.
  induction t as [|x t IH]; cbn [sql.upsert map]; intros H.
  - destruct H.
  - destruct (String.eqb_spec (col_uid x) (col_uid r)) as [E|NE]; cbn [map col_uid].
    + reflexivity.
    + f_equal. apply IH. destruct H; [contradiction|assumption].
Qed.

Lemma map_uid_upsert_notin r t :
  ~ In (col_uid r) (map col_uid t) ->
  map col_uid (sql.upsert r t) = (map col_uid t ++ [col_uid r])%list.
Proof.
  induction t as [|x t IH]; cbn [sql.upsert map app]; intros H.
  - reflexivity.
  - destruct (String.eqb_spec (col_uid x) (col_uid r)) as [E|NE]; cbn [map col_uid].
    + exfalso. apply H. left. exact E.
    + f_equal. apply IH. intros Hin. apply H. right. exact Hin.
Qed.

Lemma upsert_primary_key r t :
  sql.primary_key t -> sql.primary_key (sql.upsert r t).
Proof.
  unfold sql.primary_key. intros H.
  destruct (in_dec string_dec (col_uid r) (map col_uid t)) as [Hin|Hout].
  - rewrite map_uid_upsert_in by exact Hin. exact H.
  - rewrite map_uid_upsert_notin by exact Hout.
    apply NoDup_app; [exact H|constructor; [intros []|constructor]|].
    intros a Ha [<-|[]]. contradiction.
Qed.

Lemma upsert_Forall (P : Row -> Prop) r t :
  (forall x, P x ->
     P {| col_uid := col_uid x; col_token := col_token r;
          col_expires := col_expires r; col_created := col_created x |}) ->
  P r -> Forall P t -> Forall P (sql.upsert r t).
Proof.
  intros Hupd Hr. induction 1 as [|x t Hx Ht IH]; cbn [sql.upsert].
  - constructor; [exact Hr|constructor].
  - destruct (String.eqb (col_uid x) (col_uid r)).
    + constructor; [apply Hupd; exact Hx|exact Ht].
    + constructor; [exact Hx|exact IH].
Qed.

Lemma set_table_same name t db : sql.set_table name t db name = Some t.
Proof. unfold sql.set_table. rewrite String.eqb_refl. reflexivity. Qed.


Lemma count_uid_primary_key t uid :
  sql.primary_key t -> (List.length (sql.select_by_uid uid t) <= 1)%nat.
Proof.
  unfold sql.primary_key. induction t as [|x t IH]; cbn [map sql.select_by_uid filter]; intros H.
  - cbn. lia.
  - inversion H as [|? ? Hnotin Hnd]; subst.
    destruct (String.eqb_spec (col_uid x) uid) as [E|NE].
    + cbn [List.length].
      assert (Hnil : sql.select_by_uid uid t = []).
      { destruct (sql.select_by_uid uid t) as [|y l] eqn:El; [reflexivity|].
        exfalso. apply Hnotin.
        assert (Hy : In y (sql.select_by_uid uid t)) by (rewrite El; left; reflexivity).
        apply filter_In in Hy. destruct Hy as [Hy1 Hy2].
        apply String.eqb_eq in Hy2. rewrite E, <- Hy2. apply in_map. exact Hy1. }
      fold (sql.select_by_uid uid t). rewrite Hnil. cbn. lia.
    + apply IH. exact Hnd.
Qed.

(** ** The store methods, run *)

Section StoreFacts.

Context {B : bcrypt.Package}.

Lemma lookup_rows s uid db r :
  lookup s uid db = Some r ->
  exists t rest, db (tableName s) = Some t /\ sql.select_by_uid uid t = r :: rest.
Proof.
  unfold lookup. destruct (db (tableName s)) as [t|]; [|discriminate].
  destruct (sql.select_by_uid uid t) as [|x rest] eqn:E; [discriminate|].
  cbn. intros [= ->]. exists t, rest. split; [reflexivity|exact E].
Qed.


Lemma getSessionByUID_found s uid db r ex cr :
  lookup s uid db = Some r ->
  time.Parse DateFormatISO8601 (col_expires r) = inl ex ->
  time.Parse DateFormatISO8601 (col_created r) = inl cr ->
  getSessionByUID s uid db =
    (({| TokenHash := col_token r; UID := uid; Expires := ex; Created := cr |}, None),
     db, [EvQuery (tableName s) uid]).
Proof.
  intros Hl He Hc. destruct (lookup_rows _ _ _ _ Hl) as (t & rest & Ht & Hsel).
  unfold getSessionByUID, sql.Query. unfold_m.
  rewrite Ht, Hsel. cbn. rewrite He, Hc. reflexivity.
Qed.

Lemma getSessionByUID_bad_expires s uid db r pe :
  lookup s uid db = Some r ->
  time.Parse DateFormatISO8601 (col_expires r) = inr pe ->
  getSessionByUID s uid db =
    (({| TokenHash := col_token r; UID := uid; Expires := time.zero;
         Created := time.zero |}, Some (withStack (TimeParseError pe))),
     db, [EvQuery (tableName s) uid]).
Proof.
  intros Hl He. destruct (lookup_rows _ _ _ _ Hl) as (t & rest & Ht & Hsel).
  unfold getSessionByUID, sql.Query. unfold_m.
  rewrite Ht, Hsel. cbn. rewrite He. reflexivity.
Qed.

Lemma getSessionByUID_bad_created s uid db r ex pe :
  lookup s uid db = Some r ->
  time.Parse DateFormatISO8601 (col_expires r) = inl ex ->
  time.Parse DateFormatISO8601 (col_created r) = inr pe ->
  getSessionByUID s uid db =
    (({| TokenHash := col_token r; UID := uid; Expires := ex;
         Created := time.zero |}, Some (withStack (TimeParseError pe))),
     db, [EvQuery (tableName s) uid]).
Proof.
  intros Hl He Hc. destruct (lookup_rows _ _ _ _ Hl) as (t & rest & Ht & Hsel).
  unfold getSessionByUID, sql.Query. unfold_m.
  rewrite Ht, Hsel. cbn. rewrite He, Hc. reflexivity.
Qed.

Lemma getSessionByUID_no_row s uid db t :
  db (tableName s) = Some t ->
  lookup s uid db = None ->
  getSessionByUID s uid db =
    ((Session_zero, Some (withStack ErrTokenNotFound)), db, [EvQuery (tableName s) uid]).
Proof.
  intros Ht Hl. unfold lookup in Hl. rewrite Ht in Hl.
  unfold getSessionByUID, sql.Query. unfold_m. rewrite Ht.
  destruct (sql.select_by_uid uid t); [reflexivity|discriminate].
Qed.

Lemma getSessionByUID_no_table s uid db :
  db (tableName s) = None ->
  getSessionByUID s uid db =
    ((Session_zero, Some (withStack (sql.no_such_table (tableName s)))), db,
     [EvQuery (tableName s) uid]).
Proof.
  intros Ht. unfold getSessionByUID, sql.Query. unfold_m. rewrite Ht. reflexivity.
Qed.

Lemma getSessionByUID_reads s uid db :
  state (getSessionByUID s uid db) = db /\
  calls (getSessionByUID s uid db) = [EvQuery (tableName s) uid].
Proof.
  unfold getSessionByUID, sql.Query. unfold_m.
  destruct (db (tableName s)) as [t|]; [|split; reflexivity].
  destruct (sql.select_by_uid uid t) as [|r rest]; [split; reflexivity|].
  cbn. destruct (time.Parse DateFormatISO8601 (col_expires r)); [|split; reflexivity].
  destruct (time.Parse DateFormatISO8601 (col_created r)); split; reflexivity.
Qed.

(** A session without error comes from a row whose timestamps parse. *)
Lemma getSessionByUID_ok_inv s uid db session :
  result (getSessionByUID s uid db) = (session, None) ->
  exists r,
    lookup s uid db = Some r /\
    TokenHash session = col_token r /\
    time.Parse DateFormatISO8601 (col_expires r) = inl (Expires session) /\
    time.Parse DateFormatISO8601 (col_created r) = inl (Created session).
Proof.
  destruct (db (tableName s)) as [t|] eqn:Ht.
  2:{ rewrite getSessionByUID_no_table by exact Ht. discriminate. }
  destruct (lookup s uid db) as [r|] eqn:Hl.
  2:{ rewrite (getSessionByUID_no_row _ _ _ _ Ht Hl). discriminate. }
  destruct (time.Parse DateFormatISO8601 (col_expires r)) as [ex|pe] eqn:He.
  2:{ rewrite (getSessionByUID_bad_expires _ _ _ _ _ Hl He). discriminate. }
  destruct (time.Parse DateFormatISO8601 (col_created r)) as [cr|pe] eqn:Hc.
  2:{ rewrite (getSessionByUID_bad_created _ _ _ _ _ _ Hl He Hc). discriminate. }
  rewrite (getSessionByUID_found _ _ _ _ _ _ Hl He Hc).
  unfold result; cbn [fst]. intros [= <-]. exists r. cbn. repeat split; assumption.
Qed.

Lemma Verify_run s e token uid db :
  Verify e s token uid db =
    match getSessionByUID s uid db with
    | ((session, Some err), _, l) => ((false, Some (withStack err)), db, l)
    | ((session, None), _, l) =>
        if time.Unix (now e 0) >? time.Unix (Expires session)
        then ((false, Some (withStack ErrTokenExpired)), db, (l ++ [EvNow (now e 0)])%list)
        else
          (match bcrypt.CompareHashAndPassword (TokenHash session) token with
           | Some _ => (false, Some (withStack ErrTokenNotValid))
           | None => (true, None)
           end, db,
           (l ++ [EvNow (now e 0);
                  EvCompareHashAndPassword (TokenHash session) token])%list)
    end.
Proof.
  pose proof (getSessionByUID_reads s uid db) as [Hst _].
  unfold Verify, time_Now, bcrypt_CompareHashAndPassword. unfold_m.
  destruct (getSessionByUID s uid db) as [[[session err] db'] l].
  cbn in Hst. subst db'.
  destruct err as [err|]; cbn.
  - rewrite app_nil_r. reflexivity.
  - destruct (time.Unix (now e 0) >? time.Unix (Expires session)); cbn.
    + reflexivity.
    + destruct (bcrypt.CompareHashAndPassword (TokenHash session) token); reflexivity.
Qed.

Lemma Exists_run s e uid db :
  Exists e s uid db =
    match getSessionByUID s uid db with
    | ((session, Some err), _, l) => ((false, time.zero, Some (withStack err)), db, l)
    | ((session, None), _, l) =>
        if time.Unix (now e 0) >? time.Unix (Expires session)
        then ((false, time.zero, Some (withStack ErrTokenExpired)), db,
              (l ++ [EvNow (now e 0)])%list)
        else ((true, Expires session, None), db, (l ++ [EvNow (now e 0)])%list)
    end.
Proof.
  pose proof (getSessionByUID_reads s uid db) as [Hst _].
  unfold Exists, time_Now. unfold_m.
  destruct (getSessionByUID s uid db) as [[[session err] db'] l].
  cbn in Hst. subst db'.
  destruct err as [err|]; cbn.
  - rewrite app_nil_r. reflexivity.
  - destruct (time.Unix (now e 0) >? time.Unix (Expires session)); reflexivity.
Qed.

(** [Verify] on a row whose timestamps parse. *)
Lemma Verify_found e s token uid db r ex cr :
  lookup s uid db = Some r ->
  time.Parse DateFormatISO8601 (col_expires r) = inl ex ->
  time.Parse DateFormatISO8601 (col_created r) = inl cr ->
  Verify e s token uid db =
    if time.Unix (now e 0) >? time.Unix ex
    then ((false, Some (withStack ErrTokenExpired)), db,
          [EvQuery (tableName s) uid; EvNow (now e 0)])
    else (match bcrypt.CompareHashAndPassword (col_token r) token with
          | Some _ => (false, Some (withStack ErrTokenNotValid))
          | None => (true, None)
          end, db,
          [EvQuery (tableName s) uid; EvNow (now e 0);
           EvCompareHashAndPassword (col_token r) token]).
Proof.
  intros Hl He Hc.
  rewrite Verify_run, (getSessionByUID_found _ _ _ _ _ _ Hl He Hc). reflexivity.
Qed.

(** [Exists] on a row whose timestamps parse. *)
Lemma Exists_found e s uid db r ex cr :
  lookup s uid db = Some r ->
  time.Parse DateFormatISO8601 (col_expires r) = inl ex ->
  time.Parse DateFormatISO8601 (col_created r) = inl cr ->
  Exists e s uid db =
    (if time.Unix (now e 0) >? time.Unix ex
     then (false, time.zero, Some (withStack ErrTokenExpired))
     else (true, ex, None),
     db, [EvQuery (tableName s) uid; EvNow (now e 0)]).
Proof.
  intros Hl He Hc.
  rewrite Exists_run, (getSessionByUID_found _ _ _ _ _ _ Hl He Hc). cbn [Expires].
  destruct (time.Unix (now e 0) >? time.Unix ex); reflexivity.
Qed.

Lemma Store_run e s token uid ttl db :
  Store e s token uid ttl db =
    match bcrypt.GenerateFromPassword (rand_salt e) token bcrypt.DefaultCost with
    | inr err =>
        (Some (withStack err), db, [EvGenerateFromPassword token bcrypt.DefaultCost])
    | inl h =>
        let row := {| col_uid := uid; col_token := h;
                      col_expires := time.Format (dateFormat s) (time.Add (now e 0) ttl);
                      col_created := time.Format (dateFormat s) (now e 1) |} in
        let l := [EvGenerateFromPassword token bcrypt.DefaultCost;
                  EvNow (now e 0); EvNow (now e 1); EvExec (tableName s) row] in
        match db (tableName s) with
        | None => (Some (withStack (sql.no_such_table (tableName s))), db, l)
        | Some t => (None, sql.set_table (tableName s) (sql.upsert row t) db, l)
        end
    end.
Proof.
  unfold Store, bcrypt_GenerateFromPassword, time_Now, sql.Exec. unfold_m. cbn.
  destruct (bcrypt.GenerateFromPassword (rand_salt e) token bcrypt.DefaultCost) as [h|err];
    [|reflexivity].
  destruct (db (tableName s)); reflexivity.
Qed.

Lemma Store_success e s token uid ttl db :
  result (Store e s token uid ttl db) = None ->
  exists h t,
    bcrypt.GenerateFromPassword (rand_salt e) token bcrypt.DefaultCost = inl h /\
    db (tableName s) = Some t /\
    state (Store e s token uid ttl db) =
      sql.set_table (tableName s)
        (sql.upsert {| col_uid := uid; col_token := h;
                       col_expires := time.Format (dateFormat s) (time.Add (now e 0) ttl);
                       col_created := time.Format (dateFormat s) (now e 1) |} t) db.
Proof.
  rewrite Store_run.
  destruct (bcrypt.GenerateFromPassword (rand_salt e) token bcrypt.DefaultCost) as [h|err];
    [|discriminate].
  cbv zeta. destruct (db (tableName s)) as [t|]; [|discriminate].
  intros _. exists h, t. repeat split; reflexivity.
Qed.

Lemma lookup_set_table_upsert s r t db :
  lookup s (col_uid r) (sql.set_table (tableName s) (sql.upsert r t) db) =
  Some match hd_error (sql.select_by_uid (col_uid r) t) with
       | Some x => {| col_uid := col_uid x; col_token := col_token r;
                      col_expires := col_expires r; col_created := col_created x |}
       | None => r
       end.
Proof.
  unfold lookup. rewrite set_table_same. apply select_by_uid_upsert_same.
Qed.

Lemma Unix_mono a b : a <= b -> time.Unix a <= time.Unix b.
Proof. intros H. unfold time.Unix, time.Second. apply Z.div_le_mono; lia. Qed.

(** After a successful [Store] the row of the uid carries the new hash and
    expiry, and the created column of the row it replaced, if any. *)
Lemma Store_row e s token uid ttl db :
  result (Store e s token uid ttl db) = None ->
  exists h,
    bcrypt.GenerateFromPassword (rand_salt e) token bcrypt.DefaultCost = inl h /\
    lookup s uid (state (Store e s token uid ttl db)) =
      Some {| col_uid := match lookup s uid db with
                         | Some old => col_uid old
                         | None => uid
                         end;
              col_token := h;
              col_expires := time.Format (dateFormat s) (time.Add (now e 0) ttl);
              col_created := match lookup s uid db with
                             | Some old => col_created old
                             | None => time.Format (dateFormat s) (now e 1)
                             end |}.
Proof.
  intros Hok. destruct (Store_success _ _ _ _ _ _ Hok) as (h & t & Hg & Ht & Hst).
  exists h. split; [exact Hg|]. rewrite Hst.
  set (row := {| col_uid := uid; col_token := h;
                 col_expires := time.Format (dateFormat s) (time.Add (now e 0) ttl);
                 col_created := time.Format (dateFormat s) (now e 1) |}).
  change uid with (col_uid row) at 1.
  rewrite lookup_set_table_upsert. unfold lookup. rewrite Ht. cbn [col_uid row].
  destruct (hd_error (sql.select_by_uid uid t)); reflexivity.
Qed.


(** What [getSessionByUID] reads back after a successful [Store]. *)
Lemma Store_then_session e s token uid ttl db :
  result (Store e s token uid ttl db) = None ->
  (forall old, lookup s uid db = Some old ->
     exists cr, time.Parse DateFormatISO8601 (col_created old) = inl cr) ->
  time.four_digit_year (time.Add (now e 0) ttl) ->
  time.four_digit_year (now e 1) ->
  exists h cr,
    bcrypt.GenerateFromPassword (rand_salt e) token bcrypt.DefaultCost = inl h /\
    time.Parse DateFormatISO8601
      (match lookup s uid db with
       | Some old => col_created old
       | None => time.Format (dateFormat s) (now e 1)
       end) = inl cr /\
    getSessionByUID s uid (state (Store e s token uid ttl db)) =
      (({| TokenHash := h; UID := uid;
           Expires := time.FromUnix (time.Unix (time.Add (now e 0) ttl));
           Created := cr |}, None),
       state (Store e s token uid ttl db), [EvQuery (tableName s) uid]).
Proof.
  intros Hok Hold H0 H1.
  destruct (Store_row _ _ _ _ _ _ Hok) as (h & Hg & Hl).
  assert (Hcr : exists cr,
             time.Parse DateFormatISO8601
               (match lookup s uid db with
                | Some old => col_created old
                | None => time.Format (dateFormat s) (now e 1)
                end) = inl cr).
  { destruct (lookup s uid db) as [old|] eqn:E.
    - apply (Hold old). reflexivity.
    - destruct (dateFormat s). eexists. apply Parse_Format. exact H1. }
  destruct Hcr as (cr & Hcr).
  exists h, cr. split; [exact Hg|]. split; [exact Hcr|].
  eapply getSessionByUID_found with (r := _) in Hl.
  - exact Hl.
  - cbn [col_expires]. destruct (dateFormat s). apply Parse_Format. exact H0.
  - cbn [col_created]. exact Hcr.
Qed.

Lemma Store_keeps_primary_key e s token uid ttl db :
  (forall t, db (tableName s) = Some t -> sql.primary_key t) ->
  forall t', state (Store e s token uid ttl db) (tableName s) = Some t' ->
  sql.primary_key t'.
Proof.
  intros Hpk t'. rewrite Store_run.
  destruct (bcrypt.GenerateFromPassword (rand_salt e) token bcrypt.DefaultCost) as [h|err].
  - cbv zeta. destruct (db (tableName s)) as [t|] eqn:Ht; unfold state; cbn [fst snd].
    + rewrite set_table_same. intros [= <-]. apply upsert_primary_key. apply Hpk. reflexivity.
    + rewrite Ht. discriminate.
  - unfold state; cbn [fst snd]. apply Hpk.
Qed.

Lemma one_row s uid db t r :
  db (tableName s) = Some t ->
  sql.primary_key t ->
  lookup s uid db = Some r ->
  sql.select_by_uid uid t = [r].
Proof.
  intros Ht Hpk Hl. unfold lookup in Hl. rewrite Ht in Hl.
  pose proof (count_uid_primary_key t uid Hpk) as Hlen.
  destruct (sql.select_by_uid uid t) as [|x [|y rest]]; cbn in *.
  - discriminate.
  - congruence.
  - lia.
Qed.

End StoreFacts.

(** ** The stand-in for bcrypt honours the package's contract *)

Lemma plain_correct : bcrypt.Correct fixture.plain.
Proof.
  intros salt password cost h.
  unfold bcrypt.GenerateFromPassword, bcrypt.CompareHashAndPassword, fixture.plain.
  destruct (Nat.ltb 72 (String.length password)); [discriminate|].
  intros [= <-]. rewrite String.eqb_refl. reflexivity.
Qed.

(** ** The claims of the specification *)

Section Claims.

Context {B : bcrypt.Package}.

(** C1 (the code differs): on a stored, non-expired row, a token that
    bcrypt does not match makes [Verify] return [valid = false] together
    with the non-nil error [ErrTokenNotValid] (wrapped once), where the
    specification and TestSQLiteStoreVerify expect a nil error. *)
Theorem Verify_wrong_token_is_an_error e s token uid db r ex cr err :
  lookup s uid db = Some r ->
  time.Parse DateFormatISO8601 (col_expires r) = inl ex ->
  time.Parse DateFormatISO8601 (col_created r) = inl cr ->
  time.Unix (now e 0) <= time.Unix ex ->
  bcrypt.CompareHashAndPassword (col_token r) token = Some err ->
  result (Verify e s token uid db) = (false, Some (withStack ErrTokenNotValid)).
Proof.
  intros Hl He Hc Hnow Hcmp. rewrite (Verify_found _ _ _ _ _ _ _ _ Hl He Hc).
  destruct (Z.gtb_spec (time.Unix (now e 0)) (time.Unix ex)); [lia|].
  rewrite Hcmp. reflexivity.
Qed.

(** C2 (the code differs): [Delete] removes nothing. It returns the error
    "TODO Delete", makes no call to the database and leaves it as it was, so
    a [Verify] after it gives what the same [Verify] gave before it: a token
    that verified verifies again. *)
Theorem Delete_removes_nothing e s token uid db :
  result (Delete s uid db) = Some (Errorf "TODO Delete") /\
  state (Delete s uid db) = db /\
  calls (Delete s uid db) = [] /\
  Verify e s token uid (state (Delete s uid db)) = Verify e s token uid db.
Proof. repeat split; reflexivity. Qed.

(** C4: [Verify] decides expiry before it compares hashes. On a row whose
    expiry second lies before the current second it returns
    [ErrTokenExpired] after exactly one query and one clock reading, with no
    call to bcrypt; and whenever it does call
    [bcrypt.CompareHashAndPassword], the uid has a row, that row is not
    expired, and the call compares that row's hash with the given token. *)
Theorem Verify_checks_expiry_before_the_hash e s token uid db :
  (forall r ex cr,
     lookup s uid db = Some r ->
     time.Parse DateFormatISO8601 (col_expires r) = inl ex ->
     time.Parse DateFormatISO8601 (col_created r) = inl cr ->
     time.Unix (now e 0) > time.Unix ex ->
     Verify e s token uid db =
       ((false, Some (withStack ErrTokenExpired)), db,
        [EvQuery (tableName s) uid; EvNow (now e 0)])) /\
  (forall h p,
     In (EvCompareHashAndPassword h p) (calls (Verify e s token uid db)) ->
     exists r ex,
       lookup s uid db = Some r /\
       time.Parse DateFormatISO8601 (col_expires r) = inl ex /\
       time.Unix (now e 0) <= time.Unix ex /\
       h = col_token r /\ p = token).
Proof.
  split.
  - intros r ex cr Hl He Hc Hexp. rewrite (Verify_found _ _ _ _ _ _ _ _ Hl He Hc).
    destruct (Z.gtb_spec (time.Unix (now e 0)) (time.Unix ex)); [reflexivity|lia].
  - intros h p. rewrite Verify_run.
    destruct (getSessionByUID s uid db) as [[[session [err|]] db'] l] eqn:Hs.
    + pose proof (getSessionByUID_reads s uid db) as [_ Hc]. rewrite Hs in Hc.
      unfold calls in *. cbn [snd] in *. subst l. intros [H|[]]; discriminate.
    + pose proof (getSessionByUID_reads s uid db) as [_ Hc]. rewrite Hs in Hc.
      destruct (getSessionByUID_ok_inv s uid db session) as (r & Hl & Hh & He & _).
      { rewrite Hs. reflexivity. }
      unfold calls in *. cbn [snd] in *. subst l.
      destruct (Z.gtb_spec (time.Unix (now e 0)) (time.Unix (Expires session)))
        as [Hgt|Hle]; cbn.
      * intros [H|[H|[]]]; discriminate.
      * intros [H|[H|[H|[]]]]; try discriminate.
        injection H as <- <-. exists r, (Expires session).
        repeat split; try assumption.
Qed.

(** C5: after a successful [Store] of token [t] for a uid with [ttl > 0], a
    [Verify] of the same token whose clock reading is not past the expiry
    instant returns [(true, nil)], for every bcrypt that matches a password
    against the hashes generated from it. The timestamps written are in
    four-digit years, and a row the uid already had carries a created column
    in the layout. *)
Theorem Store_then_Verify {C : bcrypt.Correct B} e1 e2 s token uid ttl db :
  result (Store e1 s token uid ttl db) = None ->
  (forall old, lookup s uid db = Some old ->
     exists cr, time.Parse DateFormatISO8601 (col_created old) = inl cr) ->
  time.four_digit_year (time.Add (now e1 0) ttl) ->
  time.four_digit_year (now e1 1) ->
  0 < ttl ->
  now e2 0 <= time.Add (now e1 0) ttl ->
  result (Verify e2 s token uid (state (Store e1 s token uid ttl db))) = (true, None).
Proof.
  intros Hok Hold H0 H1 _ Hnow.
  destruct (Store_then_session _ _ _ _ _ _ Hok Hold H0 H1) as (h & cr & Hg & _ & Hs).
  rewrite Verify_run, Hs. cbn [Expires TokenHash].
  rewrite Unix_FromUnix.
  destruct (Z.gtb_spec (time.Unix (now e2 0)) (time.Unix (time.Add (now e1 0) ttl)))
    as [Hgt|_].
  - apply Unix_mono in Hnow. lia.
  - rewrite (bcrypt.compare_generated _ _ _ _ Hg). reflexivity.
Qed.

(** C6 (the code differs): a second successful [Store] for a uid replaces
    the row: the table keeps its primary key and has exactly one row for the
    uid, carrying the second hash, and [Verify] of the second token returns
    [(true, nil)]. [Verify] of the first token, which bcrypt does not match
    against the second hash, returns [valid = false] with the non-nil error
    [ErrTokenNotValid], where the specification expects [(false, nil)]. *)
Theorem second_Store_replaces_the_row {C : bcrypt.Correct B}
    e1 e2 e3 s t1 t2 uid ttl1 ttl2 db h2 err :
  let db1 := state (Store e1 s t1 uid ttl1 db) in
  let db2 := state (Store e2 s t2 uid ttl2 db1) in
  result (Store e1 s t1 uid ttl1 db) = None ->
  result (Store e2 s t2 uid ttl2 db1) = None ->
  (forall t, db (tableName s) = Some t -> sql.primary_key t) ->
  (forall old, lookup s uid db = Some old ->
     exists cr, time.Parse DateFormatISO8601 (col_created old) = inl cr) ->
  time.four_digit_year (now e1 1) ->
  time.four_digit_year (time.Add (now e2 0) ttl2) ->
  now e3 0 <= time.Add (now e2 0) ttl2 ->
  bcrypt.GenerateFromPassword (rand_salt e2) t2 bcrypt.DefaultCost = inl h2 ->
  bcrypt.CompareHashAndPassword h2 t1 = Some err ->
  (exists t r, db2 (tableName s) = Some t /\ sql.primary_key t /\
               sql.select_by_uid uid t = [r] /\ col_token r = h2) /\
  result (Verify e3 s t2 uid db2) = (true, None) /\
  result (Verify e3 s t1 uid db2) = (false, Some (withStack ErrTokenNotValid)).
Proof.
  intros db1 db2 Hok1 Hok2 Hpk Hold Hc1 He2 Hnow Hg2 Hcmp.
  destruct (Store_row _ _ _ _ _ _ Hok1) as (h1 & Hg1 & Hl1). fold db1 in Hl1.
  assert (Hold1 : forall old, lookup s uid db1 = Some old ->
            exists cr, time.Parse DateFormatISO8601 (col_created old) = inl cr).
  { intros old. rewrite Hl1. intros [= <-]. cbn [col_created].
    destruct (lookup s uid db) as [o|] eqn:E.
    - apply (Hold o). reflexivity.
    - destruct (dateFormat s). eexists. apply Parse_Format. exact Hc1. }
  destruct (Store_row _ _ _ _ _ _ Hok2) as (h2' & Hg2' & Hl2). fold db2 in Hl2.
  rewrite Hg2 in Hg2'. injection Hg2' as <-.
  rewrite Hl1 in Hl2. cbn [col_uid col_created] in Hl2.
  destruct (Hold1 _ Hl1) as (cr & Hcr). cbn [col_created] in Hcr.
  assert (Hex : time.Parse DateFormatISO8601
                  (time.Format (dateFormat s) (time.Add (now e2 0) ttl2))
                = inl (time.FromUnix (time.Unix (time.Add (now e2 0) ttl2)))).
  { destruct (dateFormat s). apply Parse_Format. exact He2. }
  assert (Hle : time.Unix (now e3 0)
                <= time.Unix (time.FromUnix (time.Unix (time.Add (now e2 0) ttl2)))).
  { rewrite Unix_FromUnix. apply Unix_mono. exact Hnow. }
  assert (Hng : (time.Unix (now e3 0)
                 >? time.Unix (time.FromUnix (time.Unix (time.Add (now e2 0) ttl2))))
                = false).
  { destruct (Z.gtb_spec (time.Unix (now e3 0))
                (time.Unix (time.FromUnix (time.Unix (time.Add (now e2 0) ttl2)))));
      [lia|reflexivity]. }
  split; [|split].
  - destruct (Store_success _ _ _ _ _ _ Hok2) as (h & t & _ & Ht & Hst).
    fold db2 in Hst.
    assert (Ht2 : db2 (tableName s) =
                  Some (sql.upsert
                          {| col_uid := uid; col_token := h;
                             col_expires := time.Format (dateFormat s) (time.Add (now e2 0) ttl2);
                             col_created := time.Format (dateFormat s) (now e2 1) |} t)).
    { rewrite Hst. apply set_table_same. }
    assert (Hpk2 : sql.primary_key
                     (sql.upsert
                        {| col_uid := uid; col_token := h;
                           col_expires := time.Format (dateFormat s) (time.Add (now e2 0) ttl2);
                           col_created := time.Format (dateFormat s) (now e2 1) |} t)).
    { apply (Store_keeps_primary_key e2 s t2 uid ttl2 db1).
      - apply Store_keeps_primary_key. exact Hpk.
      - exact Ht2. }
    eexists. eexists. split; [exact Ht2|]. split; [exact Hpk2|]. split.
    + apply (one_row s uid db2 _ _ Ht2 Hpk2 Hl2).
    + reflexivity.
  - rewrite (Verify_found _ _ _ _ _ _ _ _ Hl2 Hex Hcr), Hng. cbn [col_token].
    rewrite (bcrypt.compare_generated _ _ _ _ Hg2). reflexivity.
  - rewrite (Verify_found _ _ _ _ _ _ _ _ Hl2 Hex Hcr), Hng. cbn [col_token].
    rewrite Hcmp. reflexivity.
Qed.

(** C7, amended: [Exists] returns [exists = false], the zero time and an
    [ErrTokenExpired] error for every uid whose row has an expiry second
    strictly before the current Unix second; that is so after a successful
    [Store] with [ttl <= -1s] when the clock has not gone back. For a uid
    with no row in the table it returns [exists = false], the zero time and
    an [ErrTokenNotFound] error. *)
Theorem Exists_expired_or_missing e s uid db :
  (forall r ex cr,
     lookup s uid db = Some r ->
     time.Parse DateFormatISO8601 (col_expires r) = inl ex ->
     time.Parse DateFormatISO8601 (col_created r) = inl cr ->
     time.Unix (now e 0) > time.Unix ex ->
     result (Exists e s uid db) = (false, time.zero, Some (withStack ErrTokenExpired))) /\
  (forall e0 token ttl db0,
     db = state (Store e0 s token uid ttl db0) ->
     result (Store e0 s token uid ttl db0) = None ->
     (forall old, lookup s uid db0 = Some old ->
        exists cr, time.Parse DateFormatISO8601 (col_created old) = inl cr) ->
     time.four_digit_year (time.Add (now e0 0) ttl) ->
     time.four_digit_year (now e0 1) ->
     ttl <= - time.Second ->
     now e0 0 <= now e 0 ->
     result (Exists e s uid db) = (false, time.zero, Some (withStack ErrTokenExpired))) /\
  (forall t,
     db (tableName s) = Some t ->
     lookup s uid db = None ->
     result (Exists e s uid db) =
       (false, time.zero, Some (withStack (withStack ErrTokenNotFound)))).
Proof.
  split; [|split].
  - intros r ex cr Hl He Hc Hexp. rewrite (Exists_found _ _ _ _ _ _ _ Hl He Hc).
    destruct (Z.gtb_spec (time.Unix (now e 0)) (time.Unix ex)); [reflexivity|lia].
  - intros e0 token ttl db0 -> Hok Hold H0 H1 Httl Hnow.
    destruct (Store_then_session _ _ _ _ _ _ Hok Hold H0 H1) as (h & cr & Hg & _ & Hs).
    rewrite Exists_run, Hs. cbn [Expires]. rewrite Unix_FromUnix.
    destruct (Z.gtb_spec (time.Unix (now e 0)) (time.Unix (time.Add (now e0 0) ttl)))
      as [_|Hle]; [reflexivity|].
    exfalso. unfold time.Unix, time.Add, time.Second in *.
    Z.div_mod_to_equations. lia.
  - intros t Ht Hl. rewrite Exists_run, (getSessionByUID_no_row _ _ _ _ Ht Hl).
    reflexivity.
Qed.


(** C10: expiry is decided on whole Unix seconds with a strict comparison.
    On a stored row, [Verify] and [Exists] answer [ErrTokenExpired] exactly
    when the current second is greater than the expiry second; when the two
    seconds are equal [Exists] reports the token present and [Verify]
    accepts a token that bcrypt matches. What [Store] writes as expiry reads
    back as [now + ttl] cut down to its whole second. *)
Theorem expiry_is_strict_on_whole_seconds e s token uid db :
  (forall r ex cr,
     lookup s uid db = Some r ->
     time.Parse DateFormatISO8601 (col_expires r) = inl ex ->
     time.Parse DateFormatISO8601 (col_created r) = inl cr ->
     (time.Unix (now e 0) > time.Unix ex <->
      result (Verify e s token uid db) = (false, Some (withStack ErrTokenExpired))) /\
     (time.Unix (now e 0) > time.Unix ex <->
      result (Exists e s uid db) = (false, time.zero, Some (withStack ErrTokenExpired))) /\
     (time.Unix (now e 0) = time.Unix ex ->
      result (Exists e s uid db) = (true, ex, None) /\
      (bcrypt.CompareHashAndPassword (col_token r) token = None ->
       result (Verify e s token uid db) = (true, None)))) /\
  (forall ttl,
     result (Store e s token uid ttl db) = None ->
     time.four_digit_year (time.Add (now e 0) ttl) ->
     exists r,
       lookup s uid (state (Store e s token uid ttl db)) = Some r /\
       time.Parse DateFormatISO8601 (col_expires r) =
         inl (time.FromUnix (time.Unix (time.Add (now e 0) ttl)))).
Proof.
  split.
  - intros r ex cr Hl He Hc.
    rewrite (Verify_found _ _ _ _ _ _ _ _ Hl He Hc), (Exists_found _ _ _ _ _ _ _ Hl He Hc).
    destruct (Z.gtb_spec (time.Unix (now e 0)) (time.Unix ex)) as [Hgt|Hle];
      unfold result; cbn [fst].
    + repeat split; try reflexivity; lia.
    + split; [|split].
      * split; [lia|].
        destruct (bcrypt.CompareHashAndPassword (col_token r) token); discriminate.
      * split; [lia|discriminate].
      * intros _. split; [reflexivity|]. intros ->. reflexivity.
  - intros ttl Hok H0. destruct (Store_row _ _ _ _ _ _ Hok) as (h & Hg & Hl).
    eexists. split; [exact Hl|]. cbn [col_expires].
    destruct (dateFormat s). apply Parse_Format. exact H0.
Qed.

End Claims.

Section Protocol.

Context {T S : Type}.

(** C3: [RequestToken] runs generate, then send, then store, and returns the
    error of the first stage that fails as that stage returned it. When
    Generate fails nothing else is called; when Send fails the store's Store
    is not called and the state of the store is what it was; when both
    succeed the result is what Store returns. *)
Theorem RequestToken_generate_send_store (s : TokenStore.t S) (t : Strategy.t T)
    (uid recipient : string) (st_t : T) (st_s : S) :
  (forall tok e st1,
     Strategy.Generate t st_t = ((tok, Some e), st1) ->
     RequestToken s t uid recipient (st_t, st_s) =
       (Some e, (st1, st_s), [CallGenerate])) /\
  (forall tok st1 e st2,
     Strategy.Generate t st_t = ((tok, None), st1) ->
     Strategy.Send t tok uid recipient st1 = (Some e, st2) ->
     RequestToken s t uid recipient (st_t, st_s) =
       (Some e, (st2, st_s), [CallGenerate; CallSend tok uid recipient])) /\
  (forall tok st1 st2 err st_s',
     Strategy.Generate t st_t = ((tok, None), st1) ->
     Strategy.Send t tok uid recipient st1 = (None, st2) ->
     TokenStore.Store s tok uid (Strategy.TTL t) st_s = (err, st_s') ->
     RequestToken s t uid recipient (st_t, st_s) =
       (err, (st2, st_s'),
        [CallGenerate; CallSend tok uid recipient;
         CallStore tok uid (Strategy.TTL t)])).
Proof.
  unfold RequestToken, invoke, on_strategy, on_store, bind, ret.
  split; [|split].
  - intros tok e st1 Hg. rewrite Hg. reflexivity.
  - intros tok st1 e st2 Hg Hs. rewrite Hg. cbn. rewrite Hs. reflexivity.
  - intros tok st1 st2 err st_s' Hg Hs Hst. rewrite Hg. cbn. rewrite Hs. cbn.
    rewrite Hst. reflexivity.
Qed.

(** C8: when the store's Verify returns [(true, nil)] and the Delete that
    [VerifyToken] then issues for the same uid returns an error,
    [VerifyToken] returns [valid = true] together with that error. *)
Theorem VerifyToken_reports_delete_failure (s : TokenStore.t S)
    (uid token : string) (st st1 st2 : S) (e : error) :
  TokenStore.Verify s token uid st = ((true, None), st1) ->
  TokenStore.Delete s uid st1 = (Some e, st2) ->
  VerifyToken s uid token st =
    ((true, Some e), st2, [CallVerify token uid; CallDelete uid]).
Proof.
  intros Hv Hd. unfold VerifyToken, invoke, bind, ret.
  rewrite Hv. cbn. rewrite Hd. reflexivity.
Qed.

End Protocol.

(** ** The claims at concrete inputs

    The store of the tests on the empty session table, the clock at
    2026-10-31T12:00:00.5Z, and the stand-in for bcrypt. *)

Lemma Verify_wrong_token_is_an_error_witness :
  result (Verify (B := fixture.plain) (fixture.env fixture.noon) fixture.store
            "bad_token" "uid" (fixture.stored "token" time.Hour))
  = (false, Some (withStack ErrTokenNotValid)).
Proof.
  apply (Verify_wrong_token_is_an_error (B := fixture.plain) _ _ _ _ _
           {| col_uid := "uid"; col_token := "$2a$10$token";
              col_expires := "2026-10-31T13:00:00Z";
              col_created := "2026-10-31T12:00:00Z" |}
           (time.FromUnix 1793451600) (time.FromUnix 1793448000)
           (BcryptError "hashedPassword is not the hash of the given password"));
    by_computation.
Defined.

Lemma RequestToken_generate_send_store_witness :
  RequestToken (fixture.mockTokenStore None (false, None) None)
    (fixture.strategy "" (Some (CustomError "refused generate")) None)
    "" "" ([], O)
  = (Some (CustomError "refused generate"), ([], O), [CallGenerate]) /\
  RequestToken (fixture.mockTokenStore None (false, None) None)
    (fixture.strategy "1337" None (Some (CustomError "refused send")))
    "uid" "recipient" ([], O)
  = (Some (CustomError "refused send"), (["1337"], O),
     [CallGenerate; CallSend "1337" "uid" "recipient"]) /\
  RequestToken (fixture.mockTokenStore (Some (CustomError "refused store")) (false, None) None)
    (fixture.strategy "1337" None None)
    "uid" "recipient" ([], O)
  = (Some (CustomError "refused store"), (["1337"], 1%nat),
     [CallGenerate; CallSend "1337" "uid" "recipient";
      CallStore "1337" "uid" (5 * time.Minute)]).
Proof.
  split; [|split].
  - apply (proj1 (RequestToken_generate_send_store
                    (fixture.mockTokenStore None (false, None) None)
                    (fixture.strategy "" (Some (CustomError "refused generate")) None)
                    "" "" [] O) "" (CustomError "refused generate") []).
    reflexivity.
  - apply (proj1 (proj2 (RequestToken_generate_send_store
                    (fixture.mockTokenStore None (false, None) None)
                    (fixture.strategy "1337" None (Some (CustomError "refused send")))
                    "uid" "recipient" [] O))
             "1337" [] (CustomError "refused send") ["1337"]);
      reflexivity.
  - apply (proj2 (proj2 (RequestToken_generate_send_store
                    (fixture.mockTokenStore (Some (CustomError "refused store"))
                       (false, None) None)
                    (fixture.strategy "1337" None None)
                    "uid" "recipient" [] O))
             "1337" [] ["1337"] (Some (CustomError "refused store")) 1%nat);
      reflexivity.
Defined.

Lemma Verify_checks_expiry_before_the_hash_witness :
  Verify (B := fixture.plain) (fixture.env fixture.noon) fixture.store
    "token" "uid" (fixture.stored "token" (- time.Hour))
  = ((false, Some (withStack ErrTokenExpired)), fixture.stored "token" (- time.Hour),
     [EvQuery "session" "uid"; EvNow fixture.noon]) /\
  exists r ex,
    lookup fixture.store "uid" (fixture.stored "token" time.Hour) = Some r /\
    time.Parse DateFormatISO8601 (col_expires r) = inl ex /\
    time.Unix (now (fixture.env fixture.noon) 0) <= time.Unix ex /\
    "$2a$10$token" = col_token r /\ "token" = "token".
Proof.
  split.
  - apply (proj1 (Verify_checks_expiry_before_the_hash (B := fixture.plain)
                    (fixture.env fixture.noon) fixture.store "token" "uid"
                    (fixture.stored "token" (- time.Hour)))
             {| col_uid := "uid"; col_token := "$2a$10$token";
                col_expires := "2026-10-31T11:00:00Z";
                col_created := "2026-10-31T12:00:00Z" |}
             (time.FromUnix 1793444400) (time.FromUnix 1793448000));
      by_computation.
  - apply (proj2 (Verify_checks_expiry_before_the_hash (B := fixture.plain)
                    (fixture.env fixture.noon) fixture.store "token" "uid"
                    (fixture.stored "token" time.Hour))
             "$2a$10$token" "token").
    vm_compute. right. right. left. reflexivity.
Defined.

Lemma Store_then_Verify_witness :
  result (Verify (B := fixture.plain) (fixture.env fixture.noon) fixture.store
            "token" "uid" (fixture.stored "token" time.Hour))
  = (true, None).
Proof.
  apply (Store_then_Verify (B := fixture.plain) (C := plain_correct)
           (fixture.env fixture.noon) (fixture.env fixture.noon) fixture.store
           "token" "uid" time.Hour fixture.createDB);
    by_computation.
Defined.

Lemma second_Store_replaces_the_row_witness :
  let db2 :=
    state (Store (B := fixture.plain) (fixture.env fixture.noon) fixture.store
             "t2" "uid" time.Hour (fixture.stored "t1" time.Hour)) in
  (exists t r, db2 (tableName fixture.store) = Some t /\ sql.primary_key t /\
               sql.select_by_uid "uid" t = [r] /\ col_token r = "$2a$10$t2") /\
  result (Verify (B := fixture.plain) (fixture.env fixture.noon) fixture.store
            "t2" "uid" db2) = (true, None) /\
  result (Verify (B := fixture.plain) (fixture.env fixture.noon) fixture.store
            "t1" "uid" db2) = (false, Some (withStack ErrTokenNotValid)).
Proof.
  apply (second_Store_replaces_the_row (B := fixture.plain) (C := plain_correct)
           (fixture.env fixture.noon) (fixture.env fixture.noon)
           (fixture.env fixture.noon) fixture.store "t1" "t2" "uid"
           time.Hour time.Hour fixture.createDB "$2a$10$t2"
           (BcryptError "hashedPassword is not the hash of the given password")).
  - by_computation.
  - by_computation.
  - intros t. vm_compute. intros [= <-]. constructor.
  - by_computation.
  - by_computation.
  - by_computation.
  - by_computation.
  - by_computation.
  - by_computation.
Defined.

(** C7, as stated, fails: a [Store] with [ttl = 0] followed by [Exists] in
    the same second reports the token present, with a nil error. *)
Lemma Exists_after_Store_with_zero_ttl :
  result (Store (B := fixture.plain) (fixture.env fixture.noon) fixture.store
            "" "uid" 0 fixture.createDB) = None /\
  result (Exists (fixture.env fixture.noon) fixture.store
            "uid" (fixture.stored "" 0))
  = (true, time.FromUnix 1793448000, None).
Proof. split; vm_compute; reflexivity. Qed.

Lemma Exists_expired_or_missing_witness :
  result (Exists (fixture.env (fixture.noon + time.Second))
            fixture.store "uid" (fixture.stored "" 0))
  = (false, time.zero, Some (withStack ErrTokenExpired)) /\
  result (Exists (fixture.env fixture.noon) fixture.store
            "uid" (fixture.stored "" (- time.Hour)))
  = (false, time.zero, Some (withStack ErrTokenExpired)) /\
  result (Exists (fixture.env fixture.noon) fixture.store
            "uid" fixture.createDB)
  = (false, time.zero, Some (withStack (withStack ErrTokenNotFound))).
Proof.
  split; [|split].
  - apply (proj1 (Exists_expired_or_missing (B := fixture.plain)
                    (fixture.env (fixture.noon + time.Second)) fixture.store "uid"
                    (fixture.stored "" 0))
             {| col_uid := "uid"; col_token := "$2a$10$";
                col_expires := "2026-10-31T12:00:00Z";
                col_created := "2026-10-31T12:00:00Z" |}
             (time.FromUnix 1793448000) (time.FromUnix 1793448000));
      by_computation.
  - apply (proj1 (proj2 (Exists_expired_or_missing (B := fixture.plain)
                    (fixture.env fixture.noon) fixture.store "uid"
                    (fixture.stored "" (- time.Hour))))
             (fixture.env fixture.noon) "" (- time.Hour) fixture.createDB);
      by_computation.
  - apply (proj2 (proj2 (Exists_expired_or_missing (B := fixture.plain)
                    (fixture.env fixture.noon) fixture.store "uid" fixture.createDB))
             []);
      by_computation.
Defined.

Lemma VerifyToken_reports_delete_failure_witness :
  VerifyToken (fixture.mockTokenStore None (true, None)
                 (Some (CustomError "delete failure"))) "uid" "token" O
  = ((true, Some (CustomError "delete failure")), 2%nat,
     [CallVerify "token" "uid"; CallDelete "uid"]).
Proof.
  apply (VerifyToken_reports_delete_failure
           (fixture.mockTokenStore None (true, None)
              (Some (CustomError "delete failure")))
           "uid" "token" O 1%nat 2%nat (CustomError "delete failure"));
    reflexivity.
Defined.


Lemma expiry_is_strict_on_whole_seconds_witness :
  result (Exists (fixture.env (fixture.noon + time.Hour))
            fixture.store "uid" (fixture.stored "token" time.Hour))
  = (true, time.FromUnix 1793451600, None) /\
  result (Verify (B := fixture.plain) (fixture.env (fixture.noon + time.Hour))
            fixture.store "token" "uid" (fixture.stored "token" time.Hour))
  = (true, None) /\
  exists r,
    lookup fixture.store "uid" (fixture.stored "token" time.Hour) = Some r /\
    time.Parse DateFormatISO8601 (col_expires r)
    = inl (time.FromUnix (time.Unix (time.Add fixture.noon time.Hour))).
Proof.
  destruct (expiry_is_strict_on_whole_seconds (B := fixture.plain)
              (fixture.env (fixture.noon + time.Hour)) fixture.store "token" "uid"
              (fixture.stored "token" time.Hour)) as [Hrow _].
  destruct (Hrow {| col_uid := "uid"; col_token := "$2a$10$token";
                    col_expires := "2026-10-31T13:00:00Z";
                    col_created := "2026-10-31T12:00:00Z" |}
              (time.FromUnix 1793451600) (time.FromUnix 1793448000))
    as (_ & _ & Heq); [by_computation | by_computation | by_computation |].
  destruct Heq as [Hex Hver]; [by_computation|].
  split; [exact Hex|]. split; [apply Hver; by_computation|].
  apply (proj2 (expiry_is_strict_on_whole_seconds (B := fixture.plain)
                  (fixture.env fixture.noon) fixture.store "token" "uid"
                  fixture.createDB) time.Hour);
    by_computation.
Defined.

(** ** Further properties of the store *)

(** X1: [NewSQLiteStore] fails exactly when the connection is nil, with
    [ErrDBConnectionNotValid] (wrapped) and no store. Otherwise it returns a
    store and a nil error; the store's table is the given name, or "session"
    when the given name is empty, so never the empty name, and its date
    format is the ISO-8601 layout. *)
Theorem NewSQLiteStore_cases (db_nil : bool) (name : string) :
  match NewSQLiteStore db_nil name with
  | (Some st, None) =>
      db_nil = false /\
      tableName st = (if String.eqb name "" then "session" else name) /\
      tableName st <> "" /\
      dateFormat st = DateFormatISO8601
  | (None, Some err) => db_nil = true /\ err = withStack ErrDBConnectionNotValid
  | _ => False
  end.
Proof.
  unfold NewSQLiteStore. destruct db_nil; cbn.
  - split; reflexivity.
  - repeat split. destruct (String.eqb_spec name "") as [->|NE]; cbn.
    + discriminate.
    + exact NE.
Qed.

Section Extras.

Context {B : bcrypt.Package}.

Lemma Verify_state e s token uid db : state (Verify e s token uid db) = db.
Proof.
  rewrite Verify_run.
  destruct (getSessionByUID s uid db) as [[[session [err|]] db'] l]; [reflexivity|].
  destruct (time.Unix (now e 0) >? time.Unix (Expires session)); reflexivity.
Qed.

Lemma Exists_state e s uid db : state (Exists e s uid db) = db.
Proof.
  rewrite Exists_run.
  destruct (getSessionByUID s uid db) as [[[session [err|]] db'] l]; [reflexivity|].
  destruct (time.Unix (now e 0) >? time.Unix (Expires session)); reflexivity.
Qed.

(** X2: [Verify] and [Exists] only read. Whatever they return, the database
    is as it was, the first call is the one query by uid, and no call is a
    statement execution or a hash generation. *)
Theorem Verify_and_Exists_only_read e s token uid db :
  state (Verify e s token uid db) = db /\
  state (Exists e s uid db) = db /\
  hd_error (calls (Verify e s token uid db)) = Some (EvQuery (tableName s) uid) /\
  hd_error (calls (Exists e s uid db)) = Some (EvQuery (tableName s) uid) /\
  (forall c,
     In c (calls (Verify e s token uid db)) \/ In c (calls (Exists e s uid db)) ->
     match c with
     | EvExec _ _ | EvGenerateFromPassword _ _ => False
     | _ => True
     end).
Proof.
  split; [apply Verify_state|]. split; [apply Exists_state|].
  pose proof (getSessionByUID_reads s uid db) as [_ Hc].
  rewrite Verify_run, Exists_run.
  destruct (getSessionByUID s uid db) as [[[session [err|]] db'] l];
    unfold calls in *; cbn [snd] in *; subst l.
  - repeat split. intros c [[<-|[]]|[<-|[]]]; exact I.
  - destruct (time.Unix (now e 0) >? time.Unix (Expires session)); cbn.
    + repeat split. intros c [[<-|[<-|[]]]|[<-|[<-|[]]]]; exact I.
    + repeat split. intros c [[<-|[<-|[<-|[]]]]|[<-|[<-|[]]]]; exact I.
Qed.


Lemma Store_keeps_store_ok e s token uid ttl db :
  store_ok s db ->
  time.four_digit_year (time.Add (now e 0) ttl) ->
  time.four_digit_year (now e 1) ->
  store_ok s (state (Store e s token uid ttl db)).
Proof.
  intros Hok H0 H1 t'. rewrite Store_run.
  destruct (bcrypt.GenerateFromPassword (rand_salt e) token bcrypt.DefaultCost) as [h|err].
  2:{ unfold state; cbn [fst snd]. apply Hok. }
  cbv zeta. destruct (db (tableName s)) as [t|] eqn:Ht; unfold state; cbn [fst snd].
  2:{ rewrite Ht. discriminate. }
  rewrite set_table_same. intros [= <-].
  destruct (Hok t Ht) as [Hpk Hts]. split.
  - apply upsert_primary_key. exact Hpk.
  - apply upsert_Forall; [| |exact Hts].
    + intros x [_ Hx]. split; [|exact Hx]. cbn [col_expires].
      destruct (dateFormat s). eexists. apply Parse_Format. exact H0.
    + split; cbn [col_expires col_created]; destruct (dateFormat s);
        eexists; apply Parse_Format; assumption.
Qed.

Lemma run_op_keeps_store_ok s op db :
  store_ok s db -> clock_ok op -> store_ok s (run_op s op db).
Proof.
  intros Hok Hc. destruct op as [e token uid ttl|e uid|e token uid|uid]; cbn [run_op].
  - destruct Hc as [H0 H1]. apply Store_keeps_store_ok; assumption.
  - rewrite Exists_state. exact Hok.
  - rewrite Verify_state. exact Hok.
  - exact Hok.
Qed.

(** X4: every sequence of Store, Exists, Verify and Delete keeps the session
    table well formed: from a table with at most one row per uid and
    timestamps in the layout, and with the clock in four-digit years, the
    table after the sequence has its primary key, timestamps that parse,
    and at most one row for any uid. *)
Theorem operations_keep_the_table_well_formed s ops db :
  store_ok s db ->
  Forall clock_ok ops ->
  forall t,
    run_ops s ops db (tableName s) = Some t ->
    table_ok t /\ forall uid, (List.length (sql.select_by_uid uid t) <= 1)%nat.
Proof.
  intros Hok Hops.
  assert (Hfin : store_ok s (run_ops s ops db)).
  { unfold run_ops. revert db Hok.
    induction Hops as [|op ops Hop _ IH]; intros db Hok; cbn [fold_left].
    - exact Hok.
    - apply IH. apply run_op_keeps_store_ok; assumption. }
  intros t Ht. split; [apply Hfin; exact Ht|].
  intros uid. apply count_uid_primary_key. apply (Hfin t Ht).
Qed.



(** X6: [Verify] for a uid that has no row in the table returns
    [valid = false] and [ErrTokenNotFound], wrapped twice (once by
    getSessionByUID, once by Verify), after the one query: the clock is not
    read and bcrypt is not called. *)
Theorem Verify_without_row e s token uid db t :
  db (tableName s) = Some t ->
  lookup s uid db = None ->
  Verify e s token uid db =
    ((false, Some (withStack (withStack ErrTokenNotFound))), db,
     [EvQuery (tableName s) uid]) /\
  errors.Cause (withStack (withStack ErrTokenNotFound)) = ErrTokenNotFound.
Proof.
  intros Ht Hl. split; [|reflexivity].
  rewrite Verify_run, (getSessionByUID_no_row _ _ _ _ Ht Hl). reflexivity.
Qed.



(** X9: after a successful [Store], an [Exists] whose clock reading is not
    past the expiry instant reports the token present, with a nil error and
    the expiry cut down to its whole second: sub-second precision of
    [now + ttl] is not reported back. *)
Theorem Store_then_Exists e1 e2 s token uid ttl db :
  result (Store e1 s token uid ttl db) = None ->
  (forall old, lookup s uid db = Some old ->
     exists cr, time.Parse DateFormatISO8601 (col_created old) = inl cr) ->
  time.four_digit_year (time.Add (now e1 0) ttl) ->
  time.four_digit_year (now e1 1) ->
  now e2 0 <= time.Add (now e1 0) ttl ->
  result (Exists e2 s uid (state (Store e1 s token uid ttl db)))
  = (true, time.FromUnix (time.Unix (time.Add (now e1 0) ttl)), None).
Proof.
  intros Hok Hold H0 H1 Hnow.
  destruct (Store_then_session _ _ _ _ _ _ Hok Hold H0 H1) as (h & cr & Hg & _ & Hs).
  rewrite Exists_run, Hs. cbn [Expires]. rewrite Unix_FromUnix.
  destruct (Z.gtb_spec (time.Unix (now e2 0)) (time.Unix (time.Add (now e1 0) ttl)))
    as [Hgt|_]; [|reflexivity].
  apply Unix_mono in Hnow. lia.
Qed.


(** X11: the session [getSessionByUID] reads back after a successful
    [Store] for a uid that had no row: the hash bcrypt generated, the uid,
    and the expiry and creation instants cut down to whole seconds. *)
Theorem Store_then_getSessionByUID e s token uid ttl db :
  result (Store e s token uid ttl db) = None ->
  lookup s uid db = None ->
  time.four_digit_year (time.Add (now e 0) ttl) ->
  time.four_digit_year (now e 1) ->
  exists h,
    bcrypt.GenerateFromPassword (rand_salt e) token bcrypt.DefaultCost = inl h /\
    result (getSessionByUID s uid (state (Store e s token uid ttl db)))
    = ({| TokenHash := h; UID := uid;
          Expires := time.FromUnix (time.Unix (time.Add (now e 0) ttl));
          Created := time.FromUnix (time.Unix (now e 1)) |}, None).
Proof.
  intros Hok Hnone H0 H1.
  destruct (Store_then_session _ _ _ _ _ _ Hok) as (h & cr & Hg & Hcr & Hs);
    [rewrite Hnone; discriminate|exact H0|exact H1|].
  rewrite Hnone in Hcr. destruct (dateFormat s).
  rewrite (Parse_Format _ _ H1) in Hcr. injection Hcr as <-.
  exists h. split; [exact Hg|]. rewrite Hs. reflexivity.
Qed.

(** X12: [Exists] and [Verify] agree at the same clock reading. When
    [Exists] returns an error, [Verify] returns [valid = false] with the
    same error, whatever the token; when [Exists] reports the token present,
    the result of [Verify] is decided by bcrypt on the row's hash alone. *)
Theorem Exists_and_Verify_agree e s token uid db :
  match result (Exists e s uid db) with
  | (_, _, Some err) => result (Verify e s token uid db) = (false, Some err)
  | (_, _, None) =>
      exists r,
        lookup s uid db = Some r /\
        result (Verify e s token uid db) =
          match bcrypt.CompareHashAndPassword (col_token r) token with
          | Some _ => (false, Some (withStack ErrTokenNotValid))
          | None => (true, None)
          end
  end.
Proof.
  rewrite Exists_run, Verify_run.
  destruct (getSessionByUID s uid db) as [[[session [e0|]] db'] l] eqn:Hs.
  - reflexivity.
  - destruct (getSessionByUID_ok_inv s uid db session) as (r & Hl & Hh & _).
    { rewrite Hs. reflexivity. }
    destruct (time.Unix (now e 0) >? time.Unix (Expires session));
      unfold result; cbn [fst].
    + reflexivity.
    + exists r. split; [exact Hl|]. rewrite Hh. reflexivity.
Qed.




End Extras.

(** ** The further properties at concrete inputs *)


Lemma operations_keep_the_table_well_formed_witness :
  table_ok [{| col_uid := "uid"; col_token := "$2a$10$t2";
               col_expires := "2026-10-31T13:00:00Z";
               col_created := "2026-10-31T12:00:00Z" |}] /\
  forall uid,
    (List.length
       (sql.select_by_uid uid
          [{| col_uid := "uid"; col_token := "$2a$10$t2";
              col_expires := "2026-10-31T13:00:00Z";
              col_created := "2026-10-31T12:00:00Z" |}]) <= 1)%nat.
Proof.
  apply (operations_keep_the_table_well_formed (B := fixture.plain) fixture.store
           [OpStore (fixture.env fixture.noon) "t1" "uid" time.Hour;
            OpVerify (fixture.env fixture.noon) "t1" "uid";
            OpDelete "uid";
            OpStore (fixture.env fixture.noon) "t2" "uid" time.Hour;
            OpExists (fixture.env fixture.noon) "uid"]
           fixture.createDB).
  - intros t H. vm_compute in H. injection H as <-. split; constructor.
  - repeat constructor; by_computation.
  - vm_compute. reflexivity.
Defined.


Lemma Verify_without_row_witness :
  Verify (B := fixture.plain) (fixture.env fixture.noon) fixture.store
    "bad_token" "uid" fixture.createDB
  = ((false, Some (withStack (withStack ErrTokenNotFound))), fixture.createDB,
     [EvQuery "session" "uid"]) /\
  errors.Cause (withStack (withStack ErrTokenNotFound)) = ErrTokenNotFound.
Proof.
  apply (Verify_without_row (B := fixture.plain) (fixture.env fixture.noon)
           fixture.store "bad_token" "uid" fixture.createDB []);
    vm_compute; reflexivity.
Defined.


Lemma Store_then_Exists_witness :
  result (Exists (fixture.env fixture.noon) fixture.store "uid"
            (fixture.stored "" time.Hour))
  = (true, time.FromUnix 1793451600, None).
Proof.
  apply (Store_then_Exists (B := fixture.plain) (fixture.env fixture.noon)
           (fixture.env fixture.noon) fixture.store "" "uid" time.Hour
           fixture.createDB);
    by_computation.
Defined.


Lemma Store_then_getSessionByUID_witness :
  exists h,
    bcrypt.GenerateFromPassword (Package := fixture.plain) "salt" "token"
      bcrypt.DefaultCost = inl h /\
    result (getSessionByUID fixture.store "uid" (fixture.stored "token" time.Hour))
    = ({| TokenHash := h; UID := "uid";
          Expires := time.FromUnix (time.Unix (time.Add fixture.noon time.Hour));
          Created := time.FromUnix (time.Unix fixture.noon) |}, None).
Proof.
  apply (Store_then_getSessionByUID (B := fixture.plain) (fixture.env fixture.noon)
           fixture.store "token" "uid" time.Hour fixture.createDB);
    by_computation.
Defined.


